(** * GCEManager: a fleet controller over the Compute Engine API

    A shallow embedding of [gce_manager.py].  The controller object and the
    cloud provider it talks to are threaded explicitly: every method is a
    computation over a [world] made of the [GCEManager] object, the state
    of the provider, and the trace of the calls issued so far together with
    the provider's replies.  Python exceptions are outcomes of a
    computation; the [while True] loop of [wait_for_operation] is bounded
    by a fuel argument whose exhaustion is an outcome of its own.

    Calls to [self.logger] only write to the log sinks and are left out. *)

From stdpp Require Import base option list strings pretty gmap.

Set Warnings "-register-all".
Local Open Scope string_scope.
Local Open Scope list_scope.
Local Open Scope nat_scope.

(** ** Python values and exceptions *)

(** The values the program handles: decoded JSON bodies and the
    attributes of the controller.  A [dict] is keyed by strings. *)
Inductive value :=
| VNone
| VBool (b : bool)
| VInt (z : Z)
| VStr (s : string)
| VList (l : list value)
| VDict (d : gmap string value).

Abbreviation dict := (gmap string value).

Inductive exn :=
| HttpError (detail : string)          (* raised by [execute()] *)
| OSError (detail : string)            (* raised by [open] / [read] *)
| KeyError (key : string)
| TypeError
| UnboundLocalError (name : string)
| Exception (arg : value)              (* [raise Exception(result['error'])] *)
| GCEManagerError (msg : string).

Inductive outcome (A : Type) :=
| Returns (a : A)
| Raises (e : exn)
| OutOfFuel.
Arguments Returns {A} a.
Arguments Raises {A} e.
Arguments OutOfFuel {A}.

(** [d[k]] on a dict. *)
Definition getitem (d : dict) (k : string) : outcome value :=
  match d !! k with
  | Some v => Returns v
  | None => Raises (KeyError k)
  end.

(** [v[k]] with a string key on an arbitrary value: only a dict can be
    indexed by a string. *)
Definition subscript (v : value) (k : string) : outcome value :=
  match v with
  | VDict d => getitem d k
  | _ => Raises TypeError
  end.

(** [for x in v]: the elements the loop visits.  A dict yields its keys
    (here in the order of the map; no use below depends on it) and a
    string its characters; [None], booleans and integers are not
    iterable. *)
Definition iterate (v : value) : outcome (list value) :=
  match v with
  | VList l => Returns l
  | VDict d => Returns (VStr <$> (map_to_list d).*1)
  | VStr s => Returns ((λ c, VStr (String c "")) <$> String.list_ascii_of_string s)
  | VNone | VBool _ | VInt _ => Raises TypeError
  end.

(** [v == s] for a string literal [s]. *)
Definition eq_str (v : value) (s : string) : bool :=
  match v with
  | VStr s' => String.eqb s' s
  | _ => false
  end.

(** ** The provider and the trace of calls *)

(** What a remote call or a file read gives back: a result, or a failure
    that the client library turns into an exception. *)
Inductive reply (A : Type) :=
| Answer (a : A)
| Fault (detail : string).
Arguments Answer {A} a.
Arguments Fault {A} detail.

(** The four remote operations, the startup-script file and the clock,
    as a state machine over the provider's state [S]. *)
Record Provider (S : Type) := {
  zoneOperations_get : string → string → value → S → reply dict * S;
  instances_list : string → string → S → reply dict * S;
  instances_insert : string → string → value → S → reply dict * S;
  instances_delete : string → string → value → S → reply dict * S;
  open_read : string → S → reply string * S;
  time_sleep : Z → S → S
}.
Arguments zoneOperations_get {S} _ _ _ _ _.
Arguments instances_list {S} _ _ _ _.
Arguments instances_insert {S} _ _ _ _ _.
Arguments instances_delete {S} _ _ _ _ _.
Arguments open_read {S} _ _ _.
Arguments time_sleep {S} _ _ _.

Inductive event :=
| EvGet (project zone : string) (operation : value) (r : reply dict)
| EvList (project zone : string) (r : reply dict)
| EvInsert (project zone : string) (body : value) (r : reply dict)
| EvDelete (project zone : string) (instance : value) (r : reply dict)
| EvOpenRead (path : string) (r : reply string)
| EvSleep (secs : Z).

(** ** The controller object *)

Record GCEManager := {
  zone : string;
  project : string;
  disk_image : string;
  machine_type : string;
  number_of_instances : Z;
  instances : value
}.

(** [GCEManager.__init__]: the attributes it sets. *)
Definition __init__ (zone project disk_image machine_type : string)
    (number_of_instances : Z) : GCEManager :=
  {| zone := zone; project := project; disk_image := disk_image;
     machine_type := machine_type;
     number_of_instances := number_of_instances;
     instances := VNone |}.

Record world (S : Type) := {
  self : GCEManager;
  cloud : S;
  trace : list event
}.
Arguments self {S} _.
Arguments cloud {S} _.
Arguments trace {S} _.

(** ** Computations *)

Section Methods.
Context {S : Type} (P : Provider S).

(** A method body: it runs in a world and ends in an outcome and a world. *)
Definition M (A : Type) : Type := world S → outcome A * world S.

#[global] Instance M_ret : MRet M := λ A a w, (Returns a, w).

#[global] Instance M_bind : MBind M := λ A B f m w,
  match m w with
  | (Returns a, w') => f a w'
  | (Raises e, w') => (Raises e, w')
  | (OutOfFuel, w') => (OutOfFuel, w')
  end.

(** An outcome computed without touching the world. *)
Definition lift {A : Type} (o : outcome A) : M A := λ w, (o, w).

(** Reading an attribute of [self]. *)
Definition attr {A : Type} (f : GCEManager → A) : M A := λ w, (Returns (f (self w)), w).

(** [self.instances = v]. *)
Definition set_instances (v : value) : M unit := λ w,
  (Returns tt,
   {| self := {| zone := zone (self w); project := project (self w);
                 disk_image := disk_image (self w);
                 machine_type := machine_type (self w);
                 number_of_instances := number_of_instances (self w);
                 instances := v |};
      cloud := cloud w; trace := trace w |}).

(** A call that went through returns its body; a failed one raises. *)
Definition executed {A : Type} (r : reply A) : outcome A :=
  match r with
  | Answer a => Returns a
  | Fault detail => Raises (HttpError detail)
  end.

Definition opened {A : Type} (r : reply A) : outcome A :=
  match r with
  | Answer a => Returns a
  | Fault detail => Raises (OSError detail)
  end.

(** [self.compute.zoneOperations().get(project, zone, operation).execute()] *)
Definition get_execute (project zone : string) (operation : value) : M dict := λ w,
  let '(r, c) := zoneOperations_get P project zone operation (cloud w) in
  (executed r,
   {| self := self w; cloud := c;
      trace := trace w ++ [EvGet project zone operation r] |}).

(** [self.compute.instances().list(project, zone).execute()] *)
Definition list_execute (project zone : string) : M dict := λ w,
  let '(r, c) := instances_list P project zone (cloud w) in
  (executed r,
   {| self := self w; cloud := c; trace := trace w ++ [EvList project zone r] |}).

(** [self.compute.instances().insert(project, zone, body).execute()] *)
Definition insert_execute (project zone : string) (body : value) : M dict := λ w,
  let '(r, c) := instances_insert P project zone body (cloud w) in
  (executed r,
   {| self := self w; cloud := c;
      trace := trace w ++ [EvInsert project zone body r] |}).

(** [self.compute.instances().delete(project, zone, instance).execute()] *)
Definition delete_execute (project zone : string) (instance : value) : M dict := λ w,
  let '(r, c) := instances_delete P project zone instance (cloud w) in
  (executed r,
   {| self := self w; cloud := c;
      trace := trace w ++ [EvDelete project zone instance r] |}).

(** [with open(path, 'r') as f: f.read()] *)
Definition read_file (path : string) : M string := λ w,
  let '(r, c) := open_read P path (cloud w) in
  (opened r,
   {| self := self w; cloud := c; trace := trace w ++ [EvOpenRead path r] |}).

(** [time.sleep(secs)] *)
Definition sleep (secs : Z) : M unit := λ w,
  (Returns tt,
   {| self := self w; cloud := time_sleep P secs (cloud w);
      trace := trace w ++ [EvSleep secs] |}).

(** ** [wait_for_operation] *)

(** The list comprehension: one status lookup per operation, in order. *)
Fixpoint poll (operations : list value) : M (list dict) :=
  match operations with
  | [] => mret []
  | operation :: rest =>
      p ← attr project;
      z ← attr zone;
      result ← get_execute p z operation;
      results ← poll rest;
      mret (result :: results)
  end.

(** [all(result['status'] == 'DONE' for result in results)]: the
    generator is consumed up to the first result that is not DONE. *)
Fixpoint all_done (results : list dict) : outcome bool :=
  match results with
  | [] => Returns true
  | result :: rest =>
      match getitem result "status" with
      | Returns status => if eq_str status "DONE" then all_done rest else Returns false
      | Raises e => Raises e
      | OutOfFuel => OutOfFuel
      end
  end.

(** [for result in results: if 'error' in result: raise Exception(result['error'])].
    The second argument is the binding of the variable [result] of the
    method when the loop is entered; the loop returns its binding at exit. *)
Fixpoint check_errors (results : list dict) (result : option dict) : outcome (option dict) :=
  match results with
  | [] => Returns result
  | r :: rest =>
      if bool_decide (is_Some (r !! "error"))
      then match getitem r "error" with
           | Returns e => Raises (Exception e)
           | Raises e => Raises e
           | OutOfFuel => OutOfFuel
           end
      else check_errors rest (Some r)
  end.

(** [return name]: reading a local raises UnboundLocalError when no
    statement has bound it. *)
Definition return_local (name : string) (binding : option dict) : outcome dict :=
  match binding with
  | Some v => Returns v
  | None => Raises (UnboundLocalError name)
  end.

Fixpoint wait_for_operation (fuel : nat) (operations : list value) : M dict :=
  match fuel with
  | O => lift OutOfFuel
  | Datatypes.S fuel' =>
      results ← poll operations;
      done ← lift (all_done results);
      if (done : bool) then
        result ← lift (check_errors results None);
        lift (return_local "result" result)
      else
        sleep 1;;
        wait_for_operation fuel' operations
  end.

(** ** [list_instances] *)

Definition list_instances : M value :=
  p ← attr project;
  z ← attr zone;
  result ← list_execute p z;
  match result !! "items" with
  | Some items => mret items
  | None =>
      lift (Raises (GCEManagerError
        ("no instances available in project " +:+ p +:+ ", zone " +:+ z)))
  end.

(** ** [create_instance] and [create_all] *)

(** A dict literal. *)
Definition dict_of (items : list (string * value)) : value :=
  VDict (list_to_map items).

(** The request body built by [create_instance]. *)
Definition config (name machine_type_url disk_image_url startup_script project : string) : value :=
  dict_of [
    ("name", VStr name);
    ("machineType", VStr machine_type_url);
    ("disks", VList [
      dict_of [
        ("boot", VBool true);
        ("autoDelete", VBool true);
        ("initializeParams", dict_of [("sourceImage", VStr disk_image_url)])
      ]
    ]);
    ("networkInterfaces", VList [
      dict_of [
        ("network", VStr "global/networks/default");
        ("accessConfigs", VList [
          dict_of [("type", VStr "ONE_TO_ONE_NAT"); ("name", VStr "External NAT")]
        ])
      ]
    ]);
    ("serviceAccounts", VList [
      dict_of [
        ("email", VStr "default");
        ("scopes", VList [
          VStr "https://www.googleapis.com/auth/devstorage.read_write";
          VStr "https://www.googleapis.com/auth/logging.write"
        ])
      ]
    ]);
    ("metadata", dict_of [
      ("items", VList [
        dict_of [("key", VStr "startup-script"); ("value", VStr startup_script)];
        dict_of [("key", VStr "bucket"); ("value", VStr project)]
      ])
    ])
  ].

Definition create_instance (name : string) : M dict :=
  p ← attr project;
  image ← attr disk_image;
  let disk_image_url := "projects/" +:+ p +:+ "/global/images/" +:+ image in
  z ← attr zone;
  mt ← attr machine_type;
  let machine_type_url := "zones/" +:+ z +:+ "/machineTypes/" +:+ mt in
  startup_script ← read_file "startup-script.sh";
  bucket ← attr project;
  let body := config name machine_type_url disk_image_url startup_script bucket in
  p' ← attr project;
  z' ← attr zone;
  insert_execute p' z' body.

(** [range(n)] *)
Definition range (n : Z) : list Z := seqZ 0 n.

(** The loop of [create_all] over the indices still to visit;
    [operations] is the list built so far. *)
Fixpoint create_loop (indices : list Z) (operations : list value) : M (list value) :=
  match indices with
  | [] => mret operations
  | i :: rest =>
      p ← attr project;
      let instance_name := p +:+ "-" +:+ pretty i in
      created ← create_instance instance_name;
      operation ← lift (getitem created "name");
      create_loop rest (operations ++ [operation])
  end.

Definition create_all (fuel : nat) : M unit :=
  n ← attr number_of_instances;
  operations ← create_loop (range n) [];
  wait_for_operation fuel operations;;
  roster ← list_instances;
  set_instances roster.

(** ** [delete_instance] and [delete_all] *)

Definition delete_instance (name : value) : M dict :=
  p ← attr project;
  z ← attr zone;
  delete_execute p z name.

(** The loop of [delete_all] over the roster entries still to visit. *)
Fixpoint delete_loop (roster : list value) (operations : list value) : M (list value) :=
  match roster with
  | [] => mret operations
  | instance :: rest =>
      name ← lift (subscript instance "name");
      deleted ← delete_instance name;
      operation ← lift (getitem deleted "name");
      delete_loop rest (operations ++ [operation])
  end.

Definition delete_all (fuel : nat) : M unit :=
  roster ← attr instances;
  entries ← lift (iterate roster);
  operations ← delete_loop entries [];
  wait_for_operation fuel operations;;
  mret tt.

End Methods.

(** ** Observing a trace *)

Definition is_get (e : event) : bool := match e with EvGet _ _ _ _ => true | _ => false end.
Definition is_list (e : event) : bool := match e with EvList _ _ _ => true | _ => false end.
Definition is_insert (e : event) : bool := match e with EvInsert _ _ _ _ => true | _ => false end.
Definition is_delete (e : event) : bool := match e with EvDelete _ _ _ _ => true | _ => false end.
Definition is_read (e : event) : bool := match e with EvOpenRead _ _ => true | _ => false end.
Definition is_sleep (e : event) : bool := match e with EvSleep _ => true | _ => false end.

(** Events of the waiter: status lookups and sleeps. *)
Definition is_poll (e : event) : bool := is_get e || is_sleep e.

(** Events of the creation loop: reads of the script and insert calls. *)
Definition is_creation (e : event) : bool := is_read e || is_insert e.

(** How many events of a kind a trace holds. *)
Definition count (kind : event → bool) (t : list event) : nat :=
  length (filter (λ e, kind e = true) t).

(** A reply that is a result. *)
Definition answered {A : Type} (r : reply A) : bool :=
  match r with Answer _ => true | Fault _ => false end.

(** A reply whose body has a ['name'] field: the id of the operation. *)
Definition named (r : reply dict) : bool :=
  match r with
  | Answer d => bool_decide (is_Some (d !! "name"))
  | Fault _ => false
  end.

(** The operation id of a reply, [None] where there is none. *)
Definition operation_of (r : reply dict) : option value :=
  match r with
  | Answer d => d !! "name"
  | Fault _ => None
  end.

(** A status reply with a ['status'] field, one whose status is DONE, and
    one with an ['error'] field. *)
Definition reports_status (r : reply dict) : bool :=
  match r with
  | Answer d => bool_decide (is_Some (d !! "status"))
  | Fault _ => false
  end.

Definition reports_done (r : reply dict) : bool :=
  match r with
  | Answer d => match d !! "status" with Some v => eq_str v "DONE" | None => false end
  | Fault _ => false
  end.

Definition carries_error (r : reply dict) : bool :=
  match r with
  | Answer d => bool_decide (is_Some (d !! "error"))
  | Fault _ => false
  end.

(** The error payload of a status reply. *)
Definition error_of (r : reply dict) : option value :=
  match r with
  | Answer d => d !! "error"
  | Fault _ => None
  end.

(** The value of the first item stored under [key] in a list of
    [{'key': _, 'value': _}] items. *)
Fixpoint find_item (items : list value) (key : string) : option value :=
  match items with
  | [] => None
  | VDict i :: rest =>
      match i !! "key" with
      | Some (VStr k) => if String.eqb k key then i !! "value" else find_item rest key
      | _ => find_item rest key
      end
  | _ :: rest => find_item rest key
  end.

(** The value of the metadata item stored under [key] in a request body:
    [body['metadata']['items']] is a list of such items. *)
Definition metadata_item (body : value) (key : string) : option value :=
  match body with
  | VDict d =>
      match d !! "metadata" with
      | Some (VDict md) =>
          match md !! "items" with
          | Some (VList items) => find_item items key
          | _ => None
          end
      | _ => None
      end
  | _ => None
  end.

(** The ['name'] field of a value that is a dict: the name a request body
    gives to the instance, and the name of a roster entry. *)
Definition name_of (body : value) : option value :=
  match body with
  | VDict d => d !! "name"
  | _ => None
  end.

(** A call or a read that failed. *)
Definition faulted (e : event) : bool :=
  match e with
  | EvGet _ _ _ r | EvList _ _ r | EvInsert _ _ _ r | EvDelete _ _ _ r => negb (answered r)
  | EvOpenRead _ r => negb (answered r)
  | EvSleep _ => false
  end.

(** The request bodies and the replies of the insert calls of a trace, and
    the targets and the replies of its delete calls, in order. *)
Definition insert_bodies (t : list event) : list value :=
  omap (λ e, match e with EvInsert _ _ body _ => Some body | _ => None end) t.

Definition insert_replies (t : list event) : list (reply dict) :=
  omap (λ e, match e with EvInsert _ _ _ r => Some r | _ => None end) t.

Definition delete_targets (t : list event) : list value :=
  omap (λ e, match e with EvDelete _ _ instance _ => Some instance | _ => None end) t.

Definition delete_replies (t : list event) : list (reply dict) :=
  omap (λ e, match e with EvDelete _ _ _ r => Some r | _ => None end) t.

(** The files a trace reads, in order. *)
Definition read_paths (t : list event) : list string :=
  omap (λ e, match e with EvOpenRead path _ => Some path | _ => None end) t.

(** Every insert call of the trace comes after a read of its own (one
    made since the insert before it), and the text that read returned is
    the value of the ['startup-script'] item of its metadata.  [text] is
    the text read and not used yet. *)
Fixpoint scripts_embedded (t : list event) (text : option string) : bool :=
  match t with
  | [] => true
  | EvOpenRead _ (Answer s) :: t' => scripts_embedded t' (Some s)
  | EvInsert _ _ body _ :: t' =>
      match text, metadata_item body "startup-script" with
      | Some s, Some (VStr s') => String.eqb s' s && scripts_embedded t' None
      | _, _ => false
      end
  | _ :: t' => scripts_embedded t' text
  end.

(** The instances a list reply reports. *)
Definition reported_instances (r : reply dict) : list value :=
  match r with
  | Answer d => match d !! "items" with Some (VList l) => l | _ => [] end
  | Fault _ => []
  end.

(** ** The provider seen from outside *)

Section Rounds.
Context {S : Type} (P : Provider S).

(** The replies of the provider to one status lookup per operation, asked
    in order from state [c], and the state it is left in. *)
Fixpoint answers (project zone : string) (operations : list value) (c : S)
    : list (reply dict) * S :=
  match operations with
  | [] => ([], c)
  | operation :: rest =>
      let '(r, c1) := zoneOperations_get P project zone operation c in
      let '(rs, c2) := answers project zone rest c1 in
      (r :: rs, c2)
  end.

(** The events of one round of lookups. *)
Definition round_events (project zone : string) (operations : list value)
    (rs : list (reply dict)) : list event :=
  zip_with (EvGet project zone) operations rs.

(** A round in which every lookup reports a status and some operation is
    not DONE yet. *)
Definition still_pending (rs : list (reply dict)) : bool :=
  forallb reports_status rs && negb (forallb reports_done rs).

(** The provider keeps the batch pending for [k] rounds, each followed by
    a one-second sleep: the state it reaches, if it does. *)
Fixpoint pending_rounds (k : nat) (project zone : string) (operations : list value)
    (c : S) : option S :=
  match k with
  | O => Some c
  | Datatypes.S k' =>
      let '(rs, c1) := answers project zone operations c in
      if still_pending rs
      then pending_rounds k' project zone operations (time_sleep P 1 c1)
      else None
  end.

(** The events of [k] rounds of lookups, each followed by a sleep. *)
Fixpoint pending_trace (k : nat) (project zone : string) (operations : list value)
    (c : S) : list event :=
  match k with
  | O => []
  | Datatypes.S k' =>
      let '(rs, c1) := answers project zone operations c in
      round_events project zone operations rs
        ++ EvSleep 1 :: pending_trace k' project zone operations (time_sleep P 1 c1)
  end.

(** Running [m] leaves [self] as it was and extends the trace by events
    of the given kind only. *)
Definition emits {A : Type} (kind : event → bool) (m : M A) : Prop :=
  ∀ w : world S,
    self (snd (m w)) = self w ∧
    ∃ t, trace (snd (m w)) = (trace w ++ t)%list ∧ forallb kind t = true.

End Rounds.

(** ** A simulated provider

    Operations stay PENDING until the clock, advanced by each sleep,
    reaches [ready_at]; insert and delete calls hand out consecutive
    operation ids; the list call always replies [listing]. *)

Record sim := { clock : nat; issued : nat }.

Record scenario := {
  ready_at : nat;                (* tick from which on operations are DONE *)
  failing : list string;         (* operations that end with an error *)
  quota : option nat;            (* how many inserts are accepted, if bounded *)
  listing : dict                 (* body of every list reply *)
}.

Definition sim_status (sc : scenario) (operation : value) (c : sim) : dict :=
  if Nat.ltb (clock c) (ready_at sc) then {[ "status" := VStr "PENDING" ]}
  else
    match operation with
    | VStr name =>
        if bool_decide (name ∈ failing sc)
        then <[ "error" := VStr ("failed: " +:+ name) ]> {[ "status" := VStr "DONE" ]}
        else {[ "status" := VStr "DONE" ]}
    | _ => {[ "status" := VStr "DONE" ]}
    end.

Definition sim_issue (c : sim) : reply dict * sim :=
  (Answer {[ "name" := VStr ("operation-" +:+ pretty (issued c)) ]},
   {| clock := clock c; issued := Datatypes.S (issued c) |}).

Definition simulated (sc : scenario) : Provider sim := {|
  zoneOperations_get := λ _ _ operation c, (Answer (sim_status sc operation c), c);
  instances_list := λ _ _ c, (Answer (listing sc), c);
  instances_insert := λ _ _ _ c,
    match quota sc with
    | Some q => if Nat.ltb (issued c) q then sim_issue c else (Fault "quota exceeded", c)
    | None => sim_issue c
    end;
  instances_delete := λ _ _ _ c, sim_issue c;
  open_read := λ _ c, (Answer "#! /bin/bash", c);
  time_sleep := λ _ c, {| clock := Datatypes.S (clock c); issued := issued c |}
|}.

(** A controller just built, in front of a provider in state [c]. *)
Definition fresh {S : Type} (zone project disk_image machine_type : string)
    (number_of_instances : Z) (c : S) : world S :=
  {| self := __init__ zone project disk_image machine_type number_of_instances;
     cloud := c; trace := [] |}.

(** The same controller once its roster has been set. *)
Definition with_roster {S : Type} (roster : value) (w : world S) : world S :=
  {| self := {| zone := zone (self w); project := project (self w);
                disk_image := disk_image (self w);
                machine_type := machine_type (self w);
                number_of_instances := number_of_instances (self w);
                instances := roster |};
     cloud := cloud w; trace := trace w |}.

(** *** Scenarios *)

(** Two instances listed; operations DONE after two sleeps. *)
Definition calm : scenario := {|
  ready_at := 2;
  failing := [];
  quota := None;
  listing := {[ "items" := VList [VDict {[ "name" := VStr "default-0" ]};
                                   VDict {[ "name" := VStr "default-1" ]}] ]}
|}.

(** As [calm], but two of the operations end with an error. *)
Definition stormy : scenario := {|
  ready_at := 2;
  failing := ["operation-1"; "operation-2"];
  quota := None;
  listing := listing calm
|}.

(** As [calm], but only one insert is accepted. *)
Definition rationed : scenario := {|
  ready_at := 2;
  failing := [];
  quota := Some 1;
  listing := listing calm
|}.

(** The list reply has an ['items'] field that holds no instance. *)
Definition deserted : scenario := {|
  ready_at := 0;
  failing := [];
  quota := None;
  listing := {[ "items" := VList [] ]}
|}.

(** The provider before any call, and after two sleeps. *)
Definition boot : sim := {| clock := 0; issued := 0 |}.

Definition settled : sim := {| clock := 2; issued := 0 |}.

(** A controller built with the defaults of [__init__] but for the number
    of instances. *)
Definition controller (number_of_instances : Z) : world sim :=
  fresh "us-central1-f" "default" "image" "n1-standard-1" number_of_instances boot.

(** The instances [calm] lists, and the controller once they are its
    roster. *)
Definition listed : list value := reported_instances (Answer (listing calm)).

Definition populated : world sim := with_roster (VList listed) (controller 2).

(** The operations of a batch of three. *)
Definition batch : list value :=
  [VStr "operation-0"; VStr "operation-1"; VStr "operation-2"].

(** A status reply: DONE, and DONE with an error payload. *)
Definition done_reply : reply dict := Answer {[ "status" := VStr "DONE" ]}.

Definition failed_reply (name : string) : reply dict :=
  Answer (<[ "error" := VStr ("failed: " +:+ name) ]> {[ "status" := VStr "DONE" ]}).

(** The body sent for the instance [name] by the controller above. *)
Definition body_for (name : string) : value :=
  config name "zones/us-central1-f/machineTypes/n1-standard-1"
    "projects/default/global/images/image" "#! /bin/bash" "default".

(** ** Further observations *)

(** A sleep of one second. *)
Definition is_second (e : event) : bool :=
  match e with EvSleep secs => Z.eqb secs 1 | _ => false end.

(** An insert or delete call answered with a body that has no ['name']
    field, and an event at which a loop of calls stops: a failed call or
    read, or such an answer. *)
Definition unnamed (e : event) : bool :=
  match e with
  | EvInsert _ _ _ (Answer d) | EvDelete _ _ _ (Answer d) =>
      negb (bool_decide (is_Some (d !! "name")))
  | _ => false
  end.

Definition breaks (e : event) : bool := faulted e || unnamed e.

(** An event as a controller of project [p] and zone [z] issues it: a
    remote call that names [p] and [z], a read of the startup script, a
    sleep of one second. *)
Definition proper (p z : string) (e : event) : bool :=
  match e with
  | EvGet p' z' _ _ | EvList p' z' _ | EvInsert p' z' _ _ | EvDelete p' z' _ _ =>
      String.eqb p' p && String.eqb z' z
  | EvOpenRead path _ => String.eqb path "startup-script.sh"
  | EvSleep secs => Z.eqb secs 1
  end.

(** The names [create_all] gives to the instances of the given indices. *)
Definition instance_names (project : string) (indices : list Z) : list (option value) :=
  (λ i, Some (VStr (project +:+ "-" +:+ pretty i))) <$> indices.

Section Program.
Context {S : Type} (P : Provider S).

(** Running [m] for a controller of project [p] and zone [z] leaves both
    as they are and extends the trace by proper events only. *)
Definition keeps {A : Type} (p z : string) (m : M A) : Prop :=
  ∀ w : world S,
    project (self w) = p → zone (self w) = z →
    project (self (snd (m w))) = p ∧ zone (self (snd (m w))) = z ∧
    ∃ t, trace (snd (m w)) = (trace w ++ t)%list ∧ forallb (proper p z) t = true.

(** The script at the end of the file: build a controller, create the
    batch, delete it.  Both waits get the same fuel. *)
Definition main (fuel : nat) (c : S) : outcome unit * world S :=
  (create_all P fuel;; delete_all P fuel)
    (fresh "us-central1-f" "brave-set-92418" "bsptest" "n1-standard-1" 1 c).

End Program.

(** *** More simulated providers *)

(** Operations never get DONE. *)
Definition stalled : Provider sim := {|
  zoneOperations_get := λ _ _ _ c, (Answer {[ "status" := VStr "RUNNING" ]}, c);
  instances_list := instances_list (simulated calm);
  instances_insert := instances_insert (simulated calm);
  instances_delete := instances_delete (simulated calm);
  open_read := open_read (simulated calm);
  time_sleep := time_sleep (simulated calm)
|}.

(** The startup script is missing. *)
Definition scriptless : Provider sim := {|
  zoneOperations_get := zoneOperations_get (simulated calm);
  instances_list := instances_list (simulated calm);
  instances_insert := instances_insert (simulated calm);
  instances_delete := instances_delete (simulated calm);
  open_read := λ _ c, (Fault "No such file or directory", c);
  time_sleep := time_sleep (simulated calm)
|}.

(** Insert calls are answered, but without an operation id. *)
Definition nameless : Provider sim := {|
  zoneOperations_get := zoneOperations_get (simulated calm);
  instances_list := instances_list (simulated calm);
  instances_insert := λ _ _ _ c, (Answer {[ "kind" := VStr "compute#operation" ]}, c);
  instances_delete := instances_delete (simulated calm);
  open_read := open_read (simulated calm);
  time_sleep := time_sleep (simulated calm)
|}.

(** Delete calls are refused once one has gone through. *)
Definition guarded : Provider sim := {|
  zoneOperations_get := zoneOperations_get (simulated calm);
  instances_list := instances_list (simulated calm);
  instances_insert := instances_insert (simulated calm);
  instances_delete := λ _ _ _ c,
    if Nat.ltb (issued c) 1 then sim_issue c else (Fault "resource in use", c);
  open_read := open_read (simulated calm);
  time_sleep := time_sleep (simulated calm)
|}.

(** The list reply has no ['items'] field. *)
Definition vacant : scenario := {|
  ready_at := 0;
  failing := [];
  quota := None;
  listing := ∅
|}.

(** Operations are DONE at once. *)
Definition prompt : scenario := {|
  ready_at := 0;
  failing := [];
  quota := None;
  listing := listing calm
|}.

(** The first operation of a batch is DONE, the second is slow, and the
    reply to any other has no ['status'] field. *)
Definition ragged : Provider sim := {|
  zoneOperations_get := λ _ _ operation c,
    (Answer
       match operation with
       | VStr "operation-0" => {[ "status" := VStr "DONE" ]}
       | VStr "operation-1" => {[ "status" := VStr "RUNNING" ]}
       | _ => ∅
       end, c);
  instances_list := instances_list (simulated calm);
  instances_insert := instances_insert (simulated calm);
  instances_delete := instances_delete (simulated calm);
  open_read := open_read (simulated calm);
  time_sleep := time_sleep (simulated calm)
|}.

(** * Properties *)

Section Theory.
Context {S : Type} (P : Provider S).

(** Unfolds the plumbing of computations down to matches on outcomes. *)
Ltac run :=
  unfold mbind, M_bind, mret, M_ret, attr, lift, sleep, get_execute,
    list_execute, insert_execute, delete_execute, read_file, set_instances;
  simpl.

(** ** Replies *)

Lemma reports_done_status (r : reply dict) :
  reports_done r = true → reports_status r = true.
Proof.
  destruct r as [d|]; simpl; [|done].
  destruct (d !! "status") eqn:E; [|done].
  intros _. apply bool_decide_eq_true. by eexists.
Qed.

Lemma reports_status_answered (r : reply dict) :
  reports_status r = true → answered r = true.
Proof. by destruct r. Qed.

Lemma answered_all (rs : list (reply dict)) :
  forallb answered rs = true → ∃ ds : list dict, rs = Answer <$> ds.
Proof.
  induction rs as [|r rs IH]; simpl.
  - intros _. by exists [].
  - intros [Hr Hrs]%andb_prop. destruct (IH Hrs) as [ds ->].
    destruct r as [d|]; [|done]. by exists (d :: ds).
Qed.

Lemma forallb_weaken {A : Type} (f g : A → bool) (l : list A) :
  (∀ a, f a = true → g a = true) → forallb f l = true → forallb g l = true.
Proof.
  intros Hfg. induction l as [|a l IH]; simpl; [done|].
  intros [Ha Hl]%andb_prop. by rewrite (Hfg a Ha), IH.
Qed.

Lemma done_all_answered (rs : list (reply dict)) :
  forallb reports_done rs = true → ∃ ds : list dict, rs = Answer <$> ds.
Proof.
  intros H. apply answered_all. revert H. apply forallb_weaken.
  intros r Hr. by apply reports_status_answered, reports_done_status.
Qed.

Lemma pending_all_answered (rs : list (reply dict)) :
  still_pending rs = true → ∃ ds : list dict, rs = Answer <$> ds.
Proof.
  unfold still_pending. intros [H _]%andb_prop. apply answered_all.
  revert H. apply forallb_weaken, reports_status_answered.
Qed.

(** ** The verdict of [all] *)

Lemma all_done_true (ds : list dict) :
  forallb reports_done (Answer <$> ds) = true → all_done ds = Returns true.
Proof.
  induction ds as [|d ds IH]; simpl; [done|].
  unfold getitem. destruct (d !! "status") as [v|]; [|done].
  destruct (eq_str v "DONE"); simpl; [apply IH | done].
Qed.

Lemma all_done_pending (ds : list dict) :
  still_pending (Answer <$> ds) = true → all_done ds = Returns false.
Proof.
  unfold still_pending. induction ds as [|d ds IH]; simpl; [done|].
  unfold getitem. destruct (d !! "status") as [v|] eqn:E; simpl.
  - destruct (eq_str v "DONE"); simpl; [apply IH | done].
  - done.
Qed.

(** ** The error check *)

Lemma check_errors_clean (ds : list dict) (b : option dict) :
  existsb carries_error (Answer <$> ds) = false →
  check_errors ds b = Returns (match last ds with Some d => Some d | None => b end).
Proof.
  revert b. induction ds as [|d ds IH]; intros b; simpl; [done|].
  intros [Hd Hds]%orb_false_elim. rewrite Hd, (IH _ Hds).
  rewrite last_cons. by destruct (last ds).
Qed.

Lemma check_errors_first (pre post : list dict) (d : dict) (e : value) (b : option dict) :
  existsb carries_error (Answer <$> pre) = false →
  d !! "error" = Some e →
  check_errors (pre ++ d :: post) b = Raises (Exception e).
Proof.
  revert b. induction pre as [|d' pre IH]; intros b; simpl.
  - intros _ He. rewrite bool_decide_eq_true_2 by (by eexists).
    unfold getitem. by rewrite He.
  - intros [Hd Hpre]%orb_false_elim He. rewrite Hd. by apply IH.
Qed.

Lemma check_errors_ends (ds : list dict) (b : option dict) :
  check_errors ds b ≠ OutOfFuel.
Proof.
  revert b. induction ds as [|d ds IH]; intros b; simpl; [done|].
  destruct (bool_decide (is_Some (d !! "error"))); [|apply IH].
  unfold getitem. by destruct (d !! "error").
Qed.

(** ** One round of lookups *)

Lemma answers_length (p z : string) (ops : list value) (c c' : S) (rs : list (reply dict)) :
  answers P p z ops c = (rs, c') → length rs = length ops.
Proof.
  revert c rs. induction ops as [|op ops IH]; intros c rs; simpl.
  - by intros [= <- _].
  - destruct (zoneOperations_get P p z op c) as [r c1].
    destruct (answers P p z ops c1) as [rs' c2] eqn:E.
    intros [= <- <-]. simpl. f_equal. by eapply IH.
Qed.

Lemma poll_answered (ops : list value) (w : world S) (ds : list dict) (c' : S) :
  answers P (project (self w)) (zone (self w)) ops (cloud w) = (Answer <$> ds, c') →
  poll P ops w =
    (Returns ds,
     {| self := self w; cloud := c';
        trace := trace w ++
          round_events (project (self w)) (zone (self w)) ops (Answer <$> ds) |}).
Proof.
  revert w ds. induction ops as [|op ops IH]; intros w ds; simpl.
  - intros [= Hds <-]. symmetry in Hds. apply fmap_nil_inv in Hds as ->.
    run. rewrite app_nil_r. by destruct w.
  - run.
    destruct (zoneOperations_get P _ _ op (cloud w)) as [r c1].
    destruct (answers P _ _ ops c1) as [rs c2] eqn:E.
    intros [= Hds <-]. destruct ds as [|d ds]; [done|].
    simpl in Hds. injection Hds as -> ->. simpl.
    specialize (IH {| self := self w; cloud := c1;
                      trace := trace w ++ [EvGet (project (self w)) (zone (self w)) op (Answer d)] |}
                   ds E).
    simpl in IH. rewrite IH. simpl. by rewrite <- app_assoc.
Qed.

(** ** Counting events *)

Lemma count_app (kind : event → bool) (t1 t2 : list event) :
  count kind (t1 ++ t2) = count kind t1 + count kind t2.
Proof. unfold count. by rewrite filter_app, length_app. Qed.

Lemma count_cons (kind : event → bool) (e : event) (t : list event) :
  count kind (e :: t) = (if kind e then 1 else 0) + count kind t.
Proof.
  unfold count. destruct (kind e) eqn:E.
  - by rewrite filter_cons_True.
  - rewrite filter_cons_False; [done|]. by rewrite E.
Qed.

Lemma count_round_get (p z : string) (ops : list value) (rs : list (reply dict)) :
  length rs = length ops → count is_get (round_events p z ops rs) = length ops.
Proof.
  revert rs. induction ops as [|op ops IH]; intros [|r rs]; simpl; try done.
  intros [= H]. unfold round_events. simpl. rewrite count_cons. simpl.
  f_equal. by apply IH.
Qed.

Lemma count_round_other (kind : event → bool) (p z : string) (ops : list value)
    (rs : list (reply dict)) :
  (∀ op r, kind (EvGet p z op r) = false) → count kind (round_events p z ops rs) = 0.
Proof.
  intros Hk. revert rs. induction ops as [|op ops IH]; intros [|r rs]; simpl; try done.
  unfold round_events. simpl. rewrite count_cons, Hk. by apply IH.
Qed.

Lemma count_pending_get (k : nat) (p z : string) (ops : list value) (c : S) :
  count is_get (pending_trace P k p z ops c) = k * length ops.
Proof.
  revert c. induction k as [|k IH]; intros c; simpl; [done|].
  destruct (answers P p z ops c) as [rs c1] eqn:E.
  rewrite count_app, count_cons, IH. simpl.
  by rewrite (count_round_get _ _ _ _ (answers_length _ _ _ _ _ _ E)).
Qed.

Lemma count_pending_sleep (k : nat) (p z : string) (ops : list value) (c : S) :
  count is_sleep (pending_trace P k p z ops c) = k.
Proof.
  revert c. induction k as [|k IH]; intros c; simpl; [done|].
  destruct (answers P p z ops c) as [rs c1] eqn:E.
  rewrite count_app, count_cons, IH. simpl.
  by rewrite count_round_other.
Qed.

(** ** The polling loop *)

Lemma wait_step_pending (fuel : nat) (ops : list value) (w : world S)
    (rs : list (reply dict)) (c1 : S) :
  answers P (project (self w)) (zone (self w)) ops (cloud w) = (rs, c1) →
  still_pending rs = true →
  wait_for_operation P (Datatypes.S fuel) ops w =
  wait_for_operation P fuel ops
    {| self := self w; cloud := time_sleep P 1 c1;
       trace := trace w ++
         round_events (project (self w)) (zone (self w)) ops rs ++ [EvSleep 1] |}.
Proof.
  intros Ha Hp. destruct (pending_all_answered _ Hp) as [ds ->].
  simpl. unfold mbind at 1, M_bind at 1. rewrite (poll_answered _ _ _ _ Ha).
  run. rewrite (all_done_pending _ Hp). simpl. by rewrite <- app_assoc.
Qed.

Lemma wait_step_done (fuel : nat) (ops : list value) (w : world S)
    (ds : list dict) (c' : S) :
  answers P (project (self w)) (zone (self w)) ops (cloud w) = (Answer <$> ds, c') →
  forallb reports_done (Answer <$> ds) = true →
  wait_for_operation P (Datatypes.S fuel) ops w =
  (match check_errors ds None with
   | Returns result => return_local "result" result
   | Raises e => Raises e
   | OutOfFuel => OutOfFuel
   end,
   {| self := self w; cloud := c';
      trace := trace w ++
        round_events (project (self w)) (zone (self w)) ops (Answer <$> ds) |}).
Proof.
  intros Ha Hd.
  simpl. unfold mbind at 1, M_bind at 1. rewrite (poll_answered _ _ _ _ Ha).
  run. rewrite (all_done_true _ Hd).
  by destruct (check_errors ds None).
Qed.

Lemma wait_pending_rounds (k : nat) (ops : list value) (w : world S) (ck : S) (fuel : nat) :
  pending_rounds P k (project (self w)) (zone (self w)) ops (cloud w) = Some ck →
  wait_for_operation P (k + fuel) ops w =
  wait_for_operation P fuel ops
    {| self := self w; cloud := ck;
       trace := trace w ++
         pending_trace P k (project (self w)) (zone (self w)) ops (cloud w) |}.
Proof.
  revert w. induction k as [|k IH]; intros w; simpl pending_rounds; simpl pending_trace.
  - intros [= <-]. rewrite app_nil_r. by destruct w.
  - destruct (answers P _ _ ops (cloud w)) as [rs c1] eqn:Ha.
    destruct (still_pending rs) eqn:Hp; [|done]. intros Hk.
    change (Datatypes.S k + fuel) with (Datatypes.S (k + fuel)).
    rewrite (wait_step_pending _ _ _ _ _ Ha Hp).
    rewrite IH by exact Hk. simpl.
    by rewrite <- !app_assoc.
Qed.

Lemma wait_starved (fuel : nat) (k : nat) (ops : list value) (w : world S) (ck : S) :
  pending_rounds P k (project (self w)) (zone (self w)) ops (cloud w) = Some ck →
  (fuel ≤ k)%nat →
  fst (wait_for_operation P fuel ops w) = OutOfFuel.
Proof.
  revert k w. induction fuel as [|fuel IH]; intros k w; [done|].
  destruct k as [|k]; [lia|]. simpl pending_rounds.
  destruct (answers P _ _ ops (cloud w)) as [rs c1] eqn:Ha.
  destruct (still_pending rs) eqn:Hp; [|done]. intros Hk Hle.
  rewrite (wait_step_pending _ _ _ _ _ Ha Hp).
  apply (IH k); [exact Hk | lia].
Qed.

(** What the waiter ends with once a round finds every operation DONE. *)
Lemma wait_outcome (k fuel : nat) (ops : list value) (w : world S) (ck c' : S)
    (ds : list dict) :
  pending_rounds P k (project (self w)) (zone (self w)) ops (cloud w) = Some ck →
  answers P (project (self w)) (zone (self w)) ops ck = (Answer <$> ds, c') →
  forallb reports_done (Answer <$> ds) = true →
  (k < fuel)%nat →
  wait_for_operation P fuel ops w =
  (match check_errors ds None with
   | Returns result => return_local "result" result
   | Raises e => Raises e
   | OutOfFuel => OutOfFuel
   end,
   {| self := self w; cloud := c';
      trace := trace w ++
        pending_trace P k (project (self w)) (zone (self w)) ops (cloud w) ++
        round_events (project (self w)) (zone (self w)) ops (Answer <$> ds) |}).
Proof.
  intros Hk Ha Hd Hlt.
  replace fuel with (k + Datatypes.S (fuel - Datatypes.S k))%nat by lia.
  rewrite (wait_pending_rounds _ _ _ _ _ Hk).
  rewrite (wait_step_done _ _ _ ds c'); [|exact Ha|exact Hd].
  simpl. by rewrite <- app_assoc.
Qed.

(** C1 (the code on the failing input).  On an empty sequence of
    operations [wait_for_operation] issues no status lookup and does not
    sleep, as the claim says, but it does not return: [return result]
    reads a local that no statement has bound, and UnboundLocalError is
    raised.  [create_all] passes it this input when the number of
    instances is zero. *)
Theorem wait_for_operation_empty (fuel : nat) (w : world S) :
  wait_for_operation P (Datatypes.S fuel) [] w
  = (Raises (UnboundLocalError "result"), w) ∧
  (number_of_instances (self w) = 0%Z →
   create_all P (Datatypes.S fuel) w = (Raises (UnboundLocalError "result"), w)).
Proof.
  split; [reflexivity|]. intros Hn.
  unfold create_all. unfold mbind at 1, M_bind at 1, attr at 1. simpl.
  rewrite Hn. reflexivity.
Qed.

(** C2.  When the round that finds every operation DONE holds a reply
    with an error payload, [wait_for_operation] raises one exception, made
    of the error of the first such reply in the order of the input;
    whatever the later replies carry is dropped. *)
Theorem wait_for_operation_first_error (operations : list value) (w : world S)
    (k fuel : nat) (ck c' : S) (pre post : list (reply dict)) (r : reply dict)
    (e : value) :
  pending_rounds P k (project (self w)) (zone (self w)) operations (cloud w) = Some ck →
  answers P (project (self w)) (zone (self w)) operations ck = ((pre ++ r :: post)%list, c') →
  forallb reports_done (pre ++ r :: post)%list = true →
  existsb carries_error pre = false →
  error_of r = Some e →
  (k < fuel)%nat →
  fst (wait_for_operation P fuel operations w) = Raises (Exception e).
Proof.
  intros Hk Ha Hd Hpre He Hlt.
  destruct (done_all_answered _ Hd) as [ds Hds].
  rewrite Hds in Ha, Hd.
  rewrite (wait_outcome _ _ _ _ _ _ _ Hk Ha Hd Hlt). simpl.
  symmetry in Hds. apply fmap_app_inv in Hds as (dpre & dpost' & -> & Hpost & ->).
  destruct dpost' as [|d dpost]; [done|]. simpl in Hpost. injection Hpost as -> ->.
  simpl in He. by rewrite (check_errors_first _ _ _ _ _ Hpre He).
Qed.

(** C7.  A provider that keeps the batch pending for [k] rounds and
    reports every operation DONE in the next one is polled for exactly
    [k + 1] rounds: the waiter has not returned after [k] rounds or fewer,
    it ends in the round after, and by then it has issued one lookup per
    operation in each of the [k + 1] rounds and slept [k] times. *)
Theorem wait_for_operation_rounds (operations : list value) (w : world S)
    (k : nat) (ck c' : S) (rs : list (reply dict)) :
  pending_rounds P k (project (self w)) (zone (self w)) operations (cloud w) = Some ck →
  answers P (project (self w)) (zone (self w)) operations ck = (rs, c') →
  forallb reports_done rs = true →
  (∀ fuel, (fuel ≤ k)%nat →
     fst (wait_for_operation P fuel operations w) = OutOfFuel) ∧
  (∀ fuel, (k < fuel)%nat →
     fst (wait_for_operation P fuel operations w) ≠ OutOfFuel ∧
     trace (snd (wait_for_operation P fuel operations w)) =
       (trace w ++
        pending_trace P k (project (self w)) (zone (self w)) operations (cloud w) ++
        round_events (project (self w)) (zone (self w)) operations rs)%list ∧
     count is_get (trace (snd (wait_for_operation P fuel operations w))) =
       (count is_get (trace w) + (k + 1) * length operations)%nat ∧
     count is_sleep (trace (snd (wait_for_operation P fuel operations w))) =
       (count is_sleep (trace w) + k)%nat).
Proof.
  intros Hk Ha Hd. split.
  - intros fuel Hle. by eapply wait_starved.
  - intros fuel Hlt.
    destruct (done_all_answered _ Hd) as [ds ->].
    rewrite (wait_outcome _ _ _ _ _ _ _ Hk Ha Hd Hlt). simpl.
    split; [|split; [done|split]].
    + destruct (check_errors ds None) as [[d|]| |] eqn:E; try done.
      by apply check_errors_ends in E.
    + rewrite !count_app, count_pending_get.
      rewrite (count_round_get _ _ _ _ (answers_length _ _ _ _ _ _ Ha)). lia.
    + rewrite !count_app, count_pending_sleep.
      rewrite count_round_other by done. lia.
Qed.

(** C8.  For a non-empty sequence of operations whose lookups, after [k]
    pending rounds, all report DONE with no error payload, the waiter
    given more than [k] rounds of fuel returns: its result is the last
    reply of the final round. *)
Theorem wait_for_operation_terminates (operations : list value) (w : world S)
    (k fuel : nat) (ck c' : S) (rs : list (reply dict)) :
  operations ≠ [] →
  pending_rounds P k (project (self w)) (zone (self w)) operations (cloud w) = Some ck →
  answers P (project (self w)) (zone (self w)) operations ck = (rs, c') →
  forallb reports_done rs = true →
  existsb carries_error rs = false →
  (k < fuel)%nat →
  ∃ result : dict,
    fst (wait_for_operation P fuel operations w) = Returns result ∧
    last rs = Some (Answer result) ∧
    self (snd (wait_for_operation P fuel operations w)) = self w ∧
    cloud (snd (wait_for_operation P fuel operations w)) = c'.
Proof.
  intros Hne Hk Ha Hd Herr Hlt.
  destruct (done_all_answered _ Hd) as [ds ->].
  rewrite (wait_outcome _ _ _ _ _ _ _ Hk Ha Hd Hlt). simpl.
  rewrite (check_errors_clean _ _ Herr).
  assert (length ds = length operations) as Hlen.
  { rewrite <- (answers_length _ _ _ _ _ _ Ha). by rewrite length_fmap. }
  destruct (last ds) as [d|] eqn:El.
  - exists d. simpl. split; [done|]. split; [|done].
    by rewrite fmap_last, El.
  - apply last_None in El as ->. destruct operations; done.
Qed.

(** ** What a computation may emit *)

Lemma emits_lift {A : Type} (kind : event → bool) (o : outcome A) :
  emits (S:=S) kind (lift o).
Proof. intros w. split; [done|]. exists []. by rewrite app_nil_r. Qed.

Lemma emits_ret {A : Type} (kind : event → bool) (a : A) :
  emits (S:=S) kind (mret a).
Proof. intros w. split; [done|]. exists []. by rewrite app_nil_r. Qed.

Lemma emits_attr {A : Type} (kind : event → bool) (f : GCEManager → A) :
  emits (S:=S) kind (attr f).
Proof. intros w. split; [done|]. exists []. by rewrite app_nil_r. Qed.

Lemma emits_bind {A B : Type} (kind : event → bool) (m : @M S A) (f : A → @M S B) :
  emits kind m → (∀ a, emits kind (f a)) → emits kind (m ≫= f).
Proof.
  intros Hm Hf w. unfold mbind, M_bind.
  destruct (Hm w) as (Hs & t & Ht & Hk).
  destruct (m w) as [[a|e|] w1]; simpl in *.
  - destruct (Hf a w1) as (Hs' & t' & Ht' & Hk').
    split; [congruence|]. exists (t ++ t')%list.
    by rewrite Ht', Ht, app_assoc, forallb_app, Hk, Hk'.
  - split; [done|]. by exists t.
  - split; [done|]. by exists t.
Qed.

Lemma emits_weaken {A : Type} (kind kind' : event → bool) (m : @M S A) :
  (∀ e, kind e = true → kind' e = true) → emits kind m → emits kind' m.
Proof.
  intros Hk Hm w. destruct (Hm w) as (Hs & t & Ht & Hf).
  split; [done|]. exists t. split; [done|]. revert Hf. by apply forallb_weaken.
Qed.

Lemma emits_get (p z : string) (op : value) : emits is_get (get_execute P p z op).
Proof.
  intros w. unfold get_execute. destruct (zoneOperations_get P p z op (cloud w)).
  split; [done|]. by eexists [_].
Qed.

Lemma emits_list (p z : string) : emits is_list (list_execute P p z).
Proof.
  intros w. unfold list_execute. destruct (instances_list P p z (cloud w)).
  split; [done|]. by eexists [_].
Qed.

Lemma emits_insert (p z : string) (body : value) :
  emits is_insert (insert_execute P p z body).
Proof.
  intros w. unfold insert_execute. destruct (instances_insert P p z body (cloud w)).
  split; [done|]. by eexists [_].
Qed.

Lemma emits_delete (p z : string) (name : value) :
  emits is_delete (delete_execute P p z name).
Proof.
  intros w. unfold delete_execute. destruct (instances_delete P p z name (cloud w)).
  split; [done|]. by eexists [_].
Qed.

Lemma emits_read (path : string) : emits is_read (read_file P path).
Proof.
  intros w. unfold read_file. destruct (open_read P path (cloud w)).
  split; [done|]. by eexists [_].
Qed.

Lemma emits_sleep (secs : Z) : emits is_sleep (sleep P secs).
Proof. intros w. split; [done|]. by eexists [_]. Qed.

Lemma emits_poll (ops : list value) : emits is_get (poll P ops).
Proof.
  induction ops as [|op ops IH]; simpl; [apply emits_ret|].
  apply emits_bind; [apply emits_attr|]. intros p.
  apply emits_bind; [apply emits_attr|]. intros z.
  apply emits_bind; [apply emits_get|]. intros d.
  apply emits_bind; [apply IH|]. intros ds. apply emits_ret.
Qed.

Lemma emits_wait (fuel : nat) (ops : list value) :
  emits is_poll (wait_for_operation P fuel ops).
Proof.
  induction fuel as [|fuel IH]; simpl; [apply emits_lift|].
  apply emits_bind.
  { eapply emits_weaken; [|apply emits_poll]. intros e He. unfold is_poll. by rewrite He. }
  intros ds. apply emits_bind; [apply emits_lift|]. intros [|].
  - apply emits_bind; [apply emits_lift|]. intros b. apply emits_lift.
  - apply emits_bind; [|intros _; apply IH].
    eapply emits_weaken; [|apply emits_sleep].
    intros e He. unfold is_poll. rewrite He. by destruct (is_get e).
Qed.

Lemma emits_list_instances : emits is_list (list_instances P).
Proof.
  unfold list_instances.
  apply emits_bind; [apply emits_attr|]. intros p.
  apply emits_bind; [apply emits_attr|]. intros z.
  apply emits_bind; [apply emits_list|]. intros d.
  destruct (d !! "items"); [apply emits_ret | apply emits_lift].
Qed.

(** ** Listing *)

(** C4 (amended).  When the list call is answered, [list_instances]
    raises GCEManagerError exactly when the reply has no ['items'] field;
    when the field is there it returns its value as it is, an empty
    sequence included. *)
Theorem list_instances_items (w : world S) (d : dict) (c' : S) :
  instances_list P (project (self w)) (zone (self w)) (cloud w) = (Answer d, c') →
  (∀ items, d !! "items" = Some items →
     fst (list_instances P w) = Returns items) ∧
  (d !! "items" = None →
     fst (list_instances P w) =
       Raises (GCEManagerError
         ("no instances available in project " +:+ project (self w)
            +:+ ", zone " +:+ zone (self w)))).
Proof.
  intros Hl. unfold list_instances. run. rewrite Hl. simpl.
  split.
  - by intros items ->.
  - by intros ->.
Qed.

(** ** Creating *)

(** The body [create_instance] sends for [name], given the text of the
    startup script. *)
Lemma create_instance_run (name : string) (w : world S) :
  let p := project (self w) in
  let z := zone (self w) in
  let body s :=
    config name ("zones/" +:+ z +:+ "/machineTypes/" +:+ machine_type (self w))
      ("projects/" +:+ p +:+ "/global/images/" +:+ disk_image (self w)) s p in
  match open_read P "startup-script.sh" (cloud w) with
  | (Fault detail, c1) =>
      create_instance P name w =
        (Raises (OSError detail),
         {| self := self w; cloud := c1;
            trace := trace w ++ [EvOpenRead "startup-script.sh" (Fault detail)] |})
  | (Answer s, c1) =>
      create_instance P name w =
        (executed (fst (instances_insert P p z (body s) c1)),
         {| self := self w; cloud := snd (instances_insert P p z (body s) c1);
            trace := trace w ++
              [EvOpenRead "startup-script.sh" (Answer s);
               EvInsert p z (body s) (fst (instances_insert P p z (body s) c1))] |})
  end.
Proof.
  unfold create_instance. run.
  destruct (open_read P "startup-script.sh" (cloud w)) as [[s|detail] c1]; simpl; [|done].
  destruct (instances_insert P _ _ _ c1) as [r c2]; simpl.
  by rewrite <- app_assoc.
Qed.

Lemma name_of_config (name mt img s p : string) :
  name_of (config name mt img s p) = Some (VStr name).
Proof. reflexivity. Qed.

Lemma startup_script_config (name mt img s p : string) :
  metadata_item (config name mt img s p) "startup-script" = Some (VStr s).
Proof. reflexivity. Qed.

(** The loop when no read fails and every insert is answered with an
    operation id. *)
Lemma create_loop_ok (indices : list Z) (acc : list value) (w : world S) :
  (∀ path c, answered (fst (open_read P path c)) = true) →
  (∀ p z body c, named (fst (instances_insert P p z body c)) = true) →
  ∃ (t : list event) (ops : list value) (c1 : S),
    create_loop P indices acc w =
      (Returns (acc ++ ops),
       {| self := self w; cloud := c1; trace := trace w ++ t |}) ∧
    forallb is_creation t = true ∧
    count is_insert t = length indices ∧
    count is_read t = length indices ∧
    name_of <$> insert_bodies t =
      (λ i, Some (VStr (project (self w) +:+ "-" +:+ pretty i))) <$> indices ∧
    operation_of <$> insert_replies t = Some <$> ops ∧
    scripts_embedded t None = true ∧
    Forall (λ path, path = "startup-script.sh") (read_paths t).
Proof.
  intros Hread Hins. revert acc w.
  induction indices as [|i indices IH]; intros acc w.
  - exists [], [], (cloud w). rewrite !app_nil_r. by destruct w.
  - simpl create_loop. unfold mbind at 1, M_bind at 1. unfold attr at 1. simpl.
    unfold mbind at 1, M_bind at 1.
    pose proof (create_instance_run (project (self w) +:+ "-" +:+ pretty i) w) as Hrun.
    simpl in Hrun.
    pose proof (Hread "startup-script.sh" (cloud w)) as Hr.
    destruct (open_read P "startup-script.sh" (cloud w)) as [[s|detail] c1]; [|done].
    set (body := config _ _ _ s _) in Hrun.
    assert (name_of body = Some (VStr (project (self w) +:+ "-" +:+ pretty i)))
      as Hbn by apply name_of_config.
    assert (metadata_item body "startup-script" = Some (VStr s))
      as Hss by apply startup_script_config.
    clearbody body.
    pose proof (Hins (project (self w)) (zone (self w)) body c1) as Hn.
    destruct (instances_insert P (project (self w)) (zone (self w)) body c1)
      as [[d|detail] c2]; [|done].
    simpl in Hrun, Hn. apply bool_decide_eq_true in Hn as [op Hop].
    rewrite Hrun. run. unfold getitem. rewrite Hop.
    match goal with |- context [create_loop P indices ?a ?w1] =>
      destruct (IH a w1) as (t & ops & c3 & Hloop & Hk & Hci & Hcr & Hb & Ho & Hs & Hp)
    end.
    simpl in *.
    exists ([EvOpenRead "startup-script.sh" (Answer s);
             EvInsert (project (self w)) (zone (self w)) body (Answer d)] ++ t)%list,
      (op :: ops), c3.
    rewrite Hloop. rewrite <- !app_assoc. simpl.
    split; [done|]. split; [done|].
    rewrite !count_cons. simpl.
    split; [by rewrite Hci|]. split; [by rewrite Hcr|].
    split; [by f_equal|]. split; [by f_equal|].
    split; [by rewrite Hss, String.eqb_refl|]. by constructor.
Qed.

Lemma create_loop_cons (i : Z) (indices : list Z) (acc : list value) (w : world S) :
  create_loop P (i :: indices) acc w =
  match create_instance P (project (self w) +:+ "-" +:+ pretty i) w with
  | (Returns created, w1) =>
      match created !! "name" with
      | Some operation => create_loop P indices (acc ++ [operation]) w1
      | None => (Raises (KeyError "name"), w1)
      end
  | (Raises e, w1) => (Raises e, w1)
  | (OutOfFuel, w1) => (OutOfFuel, w1)
  end.
Proof.
  simpl. run.
  destruct (create_instance P _ w) as [[d|e|] w1]; try done.
  unfold getitem. by destruct (d !! "name").
Qed.

Lemma last_fault_unique {A : Type} (f : A → bool) (t0 pre post : list A) (l ev : A) :
  existsb f t0 = false → f ev = true →
  t0 ++ [l] = pre ++ ev :: post →
  pre = t0 ∧ post = [] ∧ l = ev.
Proof.
  revert pre. induction t0 as [|a t0 IH]; intros pre; simpl.
  - intros _ _. destruct pre as [|b pre]; simpl.
    + by intros [= -> <-].
    + intros [= _ H]. by destruct pre.
  - intros [Ha Ht]%orb_false_elim Hev. destruct pre as [|b pre]; simpl.
    + intros [= -> _]. congruence.
    + intros [= -> H]. destruct (IH pre Ht Hev H) as (-> & -> & ->). done.
Qed.

(** Every run of the loop: it ends either past the last index with no
    failed call, or at the first step that fails, which is the last
    event. *)
Lemma create_loop_run (indices : list Z) (acc : list value) (w : world S) :
  self (snd (create_loop P indices acc w)) = self w ∧
  ∃ t, trace (snd (create_loop P indices acc w)) = trace w ++ t ∧
    forallb is_creation t = true ∧
    match fst (create_loop P indices acc w) with
    | Returns _ => existsb faulted t = false
    | Raises e =>
        ∃ t0 ev, t = t0 ++ [ev] ∧ existsb faulted t0 = false ∧
          count is_insert t0 < length indices ∧
          (∀ p z body detail, ev = EvInsert p z body (Fault detail) → e = HttpError detail)
    | OutOfFuel => False
    end.
Proof.
  revert acc w. induction indices as [|i indices IH]; intros acc w.
  - simpl. split; [done|]. exists []. by rewrite app_nil_r.
  - rewrite create_loop_cons.
    pose proof (create_instance_run (project (self w) +:+ "-" +:+ pretty i) w) as Hrun.
    simpl in Hrun.
    destruct (open_read P "startup-script.sh" (cloud w)) as [[s|detail] c1].
    2:{ rewrite Hrun. simpl. split; [done|]. eexists [_]. split; [done|]. split; [done|].
        exists [], (EvOpenRead "startup-script.sh" (Fault detail)).
        repeat split; [rewrite ?count_cons; unfold count; simpl; lia | by intros]. }
    set (body := config _ _ _ s _) in Hrun. clearbody body.
    destruct (instances_insert P (project (self w)) (zone (self w)) body c1)
      as [[d|detail] c2]; simpl in Hrun; rewrite Hrun; simpl.
    2:{ split; [done|]. eexists [_; _]. split; [done|]. split; [done|].
        exists [EvOpenRead "startup-script.sh" (Answer s)],
          (EvInsert (project (self w)) (zone (self w)) body (Fault detail)).
        repeat split; [rewrite ?count_cons; unfold count; simpl; lia | by intros ???? [= _ _ _ ->]]. }
    destruct (d !! "name") as [op|]; simpl.
    2:{ split; [done|]. eexists [_; _]. split; [done|]. split; [done|].
        exists [EvOpenRead "startup-script.sh" (Answer s)],
          (EvInsert (project (self w)) (zone (self w)) body (Answer d)).
        repeat split; [rewrite ?count_cons; unfold count; simpl; lia | by intros]. }
    match goal with |- context [create_loop P indices ?a ?w1] =>
      destruct (IH a w1) as (Hself & t & Ht & Hk & Hcase)
    end.
    simpl in Hself, Ht. split; [done|].
    exists ([EvOpenRead "startup-script.sh" (Answer s);
             EvInsert (project (self w)) (zone (self w)) body (Answer d)] ++ t).
    rewrite Ht, <- !app_assoc. split; [done|]. split; [done|].
    match goal with |- match fst ?run with _ => _ end =>
      destruct (fst run) as [ops|e|]; [done| |done]
    end.
    destruct Hcase as (t0 & ev & -> & Hf & Hc & Hev).
    exists ([EvOpenRead "startup-script.sh" (Answer s);
             EvInsert (project (self w)) (zone (self w)) body (Answer d)] ++ t0), ev.
    split; [done|]. split; [done|]. split; [|done].
    simpl. rewrite !count_cons. simpl. lia.
Qed.

Lemma create_all_unfold (fuel : nat) (w : world S) :
  create_all P fuel w =
  match create_loop P (range (number_of_instances (self w))) [] w with
  | (Returns operations, w1) =>
      match wait_for_operation P fuel operations w1 with
      | (Returns _, w2) =>
          match list_instances P w2 with
          | (Returns roster, w3) => set_instances roster w3
          | (Raises e, w3) => (Raises e, w3)
          | (OutOfFuel, w3) => (OutOfFuel, w3)
          end
      | (Raises e, w2) => (Raises e, w2)
      | (OutOfFuel, w2) => (OutOfFuel, w2)
      end
  | (Raises e, w1) => (Raises e, w1)
  | (OutOfFuel, w1) => (OutOfFuel, w1)
  end.
Proof.
  unfold create_all. unfold mbind at 1, M_bind at 1. unfold attr at 1. simpl.
  unfold mbind at 1, M_bind at 1.
  by destruct (create_loop P _ [] w) as [[ops|e|] w1].
Qed.

(** Events that follow the creation loop: lookups, sleeps and list calls. *)
Lemma create_all_tail (fuel : nat) (ops : list value) (w1 : world S) :
  let run :=
    match wait_for_operation P fuel ops w1 with
    | (Returns _, w2) =>
        match list_instances P w2 with
        | (Returns roster, w3) => set_instances roster w3
        | (Raises e, w3) => (Raises e, w3)
        | (OutOfFuel, w3) => (OutOfFuel, w3)
        end
    | (Raises e, w2) => (Raises e, w2)
    | (OutOfFuel, w2) => (OutOfFuel, w2)
    end in
  ∃ t2, trace (snd run) = trace w1 ++ t2 ∧
    forallb (λ e, is_poll e || is_list e) t2 = true ∧
    (∀ e, fst run = Raises e → self (snd run) = self w1).
Proof.
  simpl.
  destruct (emits_wait fuel ops w1) as (Hs & t & Ht & Hk).
  assert (forallb (λ e, is_poll e || is_list e) t = true) as Hk'.
  { revert Hk. apply forallb_weaken. by intros e ->. }
  destruct (wait_for_operation P fuel ops w1) as [[d|e|] w2]; simpl in *;
    [|by exists t|by exists t].
  destruct (emits_list_instances w2) as (Hs' & t' & Ht' & Hl).
  assert (forallb (λ e, is_poll e || is_list e) t' = true) as Hl'.
  { revert Hl. apply forallb_weaken. intros e ->. by destruct (is_poll e). }
  destruct (list_instances P w2) as [[roster|e|] w3]; simpl in *;
    exists (t ++ t'); rewrite Ht', Ht, app_assoc, forallb_app, Hk', Hl';
    repeat split; try done. congruence.
Qed.

Lemma create_all_after_loop (fuel : nat) (w w1 : world S) (ops : list value) :
  create_loop P (range (number_of_instances (self w))) [] w = (Returns ops, w1) →
  ∃ t2, trace (snd (create_all P fuel w)) = trace w1 ++ t2 ∧
    forallb (λ e, is_poll e || is_list e) t2 = true.
Proof.
  intros Hloop. rewrite create_all_unfold, Hloop.
  destruct (create_all_tail fuel ops w1) as (t2 & Ht2 & Hk2 & _).
  exists t2. split; [exact Ht2 | exact Hk2].
Qed.

Lemma create_all_loop_raises (fuel : nat) (w w1 : world S) (e : exn) :
  create_loop P (range (number_of_instances (self w))) [] w = (Raises e, w1) →
  create_all P fuel w = (Raises e, w1).
Proof. intros Hloop. by rewrite create_all_unfold, Hloop. Qed.

Lemma count_none (kind kind' : event → bool) (t : list event) :
  (∀ e, kind' e = true → kind e = false) →
  forallb kind' t = true → count kind t = 0.
Proof.
  intros Hk. induction t as [|e t IH]; simpl; [done|].
  intros [He Ht]%andb_prop. by rewrite count_cons, (Hk e He), IH.
Qed.

Lemma range_length (n : Z) : length (range n) = Z.to_nat n.
Proof. unfold range. apply length_seqZ. Qed.

Lemma scripts_embedded_tail (t : list event) (text : option string) :
  forallb (λ e, is_poll e || is_list e) t = true → scripts_embedded t text = true.
Proof.
  induction t as [|e t IH]; simpl; [done|].
  intros [He Ht]%andb_prop. destruct e; try done; by apply IH.
Qed.

Lemma scripts_embedded_app (t1 t2 : list event) (text : option string) :
  scripts_embedded t1 text = true →
  forallb (λ e, is_poll e || is_list e) t2 = true →
  scripts_embedded (t1 ++ t2) text = true.
Proof.
  intros H1 H2. revert text H1. induction t1 as [|e t1 IH]; intros text; simpl.
  - intros _. by apply scripts_embedded_tail.
  - destruct e as [| | ? ? body ?| |? [s|]|]; try apply IH.
    destruct text as [s|]; [|done].
    destruct (metadata_item body "startup-script") as [[]|]; try done.
    intros [-> H]%andb_prop. simpl. by apply IH.
Qed.

Lemma read_paths_tail (t : list event) :
  forallb (λ e, is_poll e || is_list e) t = true → read_paths t = [].
Proof.
  induction t as [|e t IH]; simpl; [done|].
  intros [He Ht]%andb_prop. unfold read_paths in *. simpl.
  destruct e; try done; by apply IH.
Qed.

(** C3 (amended).  In a run of [create_all] in which no read and no insert
    fails, the startup-script file is read once for each instance, not
    once for the run: there are [number_of_instances] reads, all of
    ['startup-script.sh'], each insert call follows a read of its own, and
    the text that read returned is the value of the ['startup-script']
    item of the metadata of its body. *)
Theorem create_all_reads_script (fuel : nat) (w : world S) :
  (∀ path c, answered (fst (open_read P path c)) = true) →
  (∀ p z body c, named (fst (instances_insert P p z body c)) = true) →
  ∃ t, trace (snd (create_all P fuel w)) = trace w ++ t ∧
    count is_read t = Z.to_nat (number_of_instances (self w)) ∧
    count is_insert t = Z.to_nat (number_of_instances (self w)) ∧
    Forall (λ path, path = "startup-script.sh") (read_paths t) ∧
    scripts_embedded t None = true.
Proof.
  intros Hread Hins.
  destruct (create_loop_ok (range (number_of_instances (self w))) [] w Hread Hins)
    as (t1 & ops & c1 & Hloop & Hk & Hci & Hcr & Hb & Ho & Hs & Hp).
  destruct (create_all_after_loop fuel _ _ _ Hloop) as (t2 & Ht2 & Hk2).
  simpl in Ht2. exists (t1 ++ t2). rewrite Ht2, <- app_assoc. split; [done|].
  rewrite !count_app, Hcr, Hci, range_length.
  rewrite (count_none is_read (λ e, is_poll e || is_list e) t2)
    by (exact Hk2 || by intros []).
  rewrite (count_none is_insert (λ e, is_poll e || is_list e) t2)
    by (exact Hk2 || by intros []).
  split; [lia|]. split; [lia|]. split.
  - unfold read_paths in *. rewrite omap_app.
    fold (read_paths t2). rewrite (read_paths_tail _ Hk2). by rewrite app_nil_r.
  - by apply scripts_embedded_app.
Qed.

(** C5.  When no read and no insert fails, [create_all] issues exactly
    [number_of_instances] insert calls, named [project-0], [project-1], ...
    in this order, and no other insert; it then waits on the operations
    these calls returned, and after a wait that succeeds it issues one
    list call, the last event of the run, whose ['items'] become the
    roster. *)
Theorem create_all_calls (fuel : nat) (w : world S) :
  (∀ path c, answered (fst (open_read P path c)) = true) →
  (∀ p z body c, named (fst (instances_insert P p z body c)) = true) →
  ∃ (t1 : list event) (operations : list value) (w1 : world S),
    create_loop P (range (number_of_instances (self w))) [] w = (Returns operations, w1) ∧
    trace w1 = trace w ++ t1 ∧ self w1 = self w ∧
    forallb is_creation t1 = true ∧
    count is_insert t1 = Z.to_nat (number_of_instances (self w)) ∧
    name_of <$> insert_bodies t1 =
      (λ i, Some (VStr (project (self w) +:+ "-" +:+ pretty i)))
        <$> range (number_of_instances (self w)) ∧
    operation_of <$> insert_replies t1 = Some <$> operations ∧
    (∃ t2, trace (snd (create_all P fuel w)) = trace w1 ++ t2 ∧
           count is_insert t2 = 0) ∧
    ∀ result w2,
      wait_for_operation P fuel operations w1 = (Returns result, w2) →
      ∃ polls r,
        trace w2 = trace w1 ++ polls ∧ forallb is_poll polls = true ∧
        r = fst (instances_list P (project (self w)) (zone (self w)) (cloud w2)) ∧
        trace (snd (create_all P fuel w)) =
          trace w2 ++ [EvList (project (self w)) (zone (self w)) r] ∧
        ∀ d roster, r = Answer d → d !! "items" = Some roster →
          fst (create_all P fuel w) = Returns tt ∧
          instances (self (snd (create_all P fuel w))) = roster.
Proof.
  intros Hread Hins.
  destruct (create_loop_ok (range (number_of_instances (self w))) [] w Hread Hins)
    as (t1 & ops & c1 & Hloop & Hk & Hci & Hcr & Hb & Ho & Hs & Hp).
  simpl in Hloop.
  exists t1, ops, {| self := self w; cloud := c1; trace := trace w ++ t1 |}.
  split; [done|]. split; [done|]. split; [done|]. split; [done|].
  split; [by rewrite Hci, range_length|]. split; [done|]. split; [done|].
  split.
  - destruct (create_all_after_loop fuel _ _ _ Hloop) as (t2 & Ht2 & Hk2).
    exists t2. split; [done|].
    apply (count_none is_insert (λ e, is_poll e || is_list e) t2); [|exact Hk2].
    by intros [].
  - intros result w2 Hwait. rewrite create_all_unfold, Hloop, Hwait.
    destruct (emits_wait fuel ops
                {| self := self w; cloud := c1; trace := trace w ++ t1 |})
      as (Hself & polls & Hpolls & Hkp).
    rewrite Hwait in Hself, Hpolls. simpl in Hself, Hpolls.
    exists polls, (fst (instances_list P (project (self w)) (zone (self w)) (cloud w2))).
    split; [done|]. split; [done|]. split; [done|].
    unfold list_instances. run. rewrite Hself.
    destruct (instances_list P (project (self w)) (zone (self w)) (cloud w2))
      as [[d|detail] c3]; simpl; [|by split].
    destruct (d !! "items") as [roster|] eqn:E; simpl;
      (split; [done|]); intros d0 roster0 [= <-]; rewrite E; [|done].
    by intros [= <-].
Qed.

(** C6.  If an insert call of [create_all] fails, [create_all] raises that
    provider error at once: the failed insert is the last event of the
    run, so no further insert, no delete, no status lookup and no list
    call is issued; before it there are only reads and inserts that went
    through, fewer than [number_of_instances] of them; and the controller,
    roster included, is left as it was. *)
Theorem create_all_fails_fast (fuel : nat) (w : world S) (pre post : list event)
    (p z : string) (body : value) (detail : string) :
  trace (snd (create_all P fuel w)) =
    trace w ++ pre ++ EvInsert p z body (Fault detail) :: post →
  fst (create_all P fuel w) = Raises (HttpError detail) ∧
  post = [] ∧
  forallb is_creation pre = true ∧
  existsb faulted pre = false ∧
  count is_insert pre < Z.to_nat (number_of_instances (self w)) ∧
  self (snd (create_all P fuel w)) = self w.
Proof.
  destruct (create_loop_run (range (number_of_instances (self w))) [] w)
    as (Hself & t & Ht & Hk & Hcase).
  destruct (create_loop P _ [] w) as [[ops|e|] w1] eqn:Hloop; simpl in *; [| |done].
  - destruct (create_all_after_loop fuel _ _ _ Hloop) as (t2 & Ht2 & Hk2).
    rewrite Ht2, Ht, <- app_assoc. intros Heq%app_inv_head.
    assert (In (EvInsert p z body (Fault detail)) (t ++ t2)) as Hin.
    { rewrite Heq. apply in_elt. }
    apply in_app_or in Hin as [Hin|Hin].
    + assert (existsb faulted t = true); [|congruence].
      apply existsb_exists. by eexists.
    + pose proof (proj1 (forallb_forall _ _) Hk2 _ Hin). done.
  - rewrite (create_all_loop_raises fuel _ _ _ Hloop). simpl.
    rewrite Ht. intros Heq%app_inv_head.
    destruct Hcase as (t0 & ev & -> & Hf & Hc & Hev).
    destruct (last_fault_unique faulted t0 pre post ev
                (EvInsert p z body (Fault detail)) Hf eq_refl Heq)
      as (-> & -> & ->).
    rewrite (Hev _ _ _ _ eq_refl). rewrite range_length in Hc.
    rewrite forallb_app in Hk. apply andb_prop in Hk as [Hk _].
    done.
Qed.

(** ** Deleting *)

Lemma delete_loop_cons (instance : value) (roster acc : list value) (w : world S) :
  delete_loop P (instance :: roster) acc w =
  match subscript instance "name" with
  | Returns name =>
      match delete_instance P name w with
      | (Returns deleted, w1) =>
          match deleted !! "name" with
          | Some operation => delete_loop P roster (acc ++ [operation]) w1
          | None => (Raises (KeyError "name"), w1)
          end
      | (Raises e, w1) => (Raises e, w1)
      | (OutOfFuel, w1) => (OutOfFuel, w1)
      end
  | Raises e => (Raises e, w)
  | OutOfFuel => (OutOfFuel, w)
  end.
Proof.
  simpl. run. destruct (subscript instance "name") as [name|e|]; try done.
  unfold delete_instance. run.
  destruct (instances_delete P _ _ name (cloud w)) as [[d|detail] c1]; simpl; try done.
  unfold getitem. by destruct (d !! "name").
Qed.

Lemma subscript_name (instance name : value) :
  name_of instance = Some name → subscript instance "name" = Returns name.
Proof.
  destruct instance; try done. simpl. unfold getitem. by intros ->.
Qed.

(** The loop when every roster entry has a name and every delete call is
    answered with an operation id. *)
Lemma delete_loop_ok (roster acc : list value) (w : world S) :
  forallb (λ i, bool_decide (is_Some (name_of i))) roster = true →
  (∀ p z name c, named (fst (instances_delete P p z name c)) = true) →
  ∃ (t : list event) (ops : list value) (c1 : S),
    delete_loop P roster acc w =
      (Returns (acc ++ ops),
       {| self := self w; cloud := c1; trace := trace w ++ t |}) ∧
    forallb is_delete t = true ∧
    length t = length roster ∧
    Some <$> delete_targets t = name_of <$> roster ∧
    operation_of <$> delete_replies t = Some <$> ops ∧
    length ops = length roster.
Proof.
  intros Hnames Hdel. revert acc w Hnames.
  induction roster as [|instance roster IH]; intros acc w; simpl forallb.
  - intros _. exists [], [], (cloud w). rewrite !app_nil_r. by destruct w.
  - intros [[name Hname]%bool_decide_eq_true Hrest]%andb_prop.
    rewrite delete_loop_cons, (subscript_name _ _ Hname).
    unfold delete_instance. run.
    pose proof (Hdel (project (self w)) (zone (self w)) name (cloud w)) as Hn.
    destruct (instances_delete P _ _ name (cloud w)) as [[d|detail] c1]; [|done].
    simpl in Hn. apply bool_decide_eq_true in Hn as [op Hop]. simpl. rewrite Hop.
    match goal with |- context [delete_loop P roster ?a ?w1] =>
      destruct (IH a w1 Hrest) as (t & ops & c2 & Hloop & Hk & Hlen & Htg & Ho & Hl)
    end.
    simpl in Hloop.
    exists (EvDelete (project (self w)) (zone (self w)) name (Answer d) :: t),
      (op :: ops), c2.
    rewrite Hloop, <- !app_assoc. simpl.
    split; [done|]. split; [done|]. split; [by rewrite Hlen|].
    split; [by f_equal|]. split; [by f_equal|]. by rewrite Hl.
Qed.

Lemma delete_all_unfold (fuel : nat) (w : world S) :
  delete_all P fuel w =
  match iterate (instances (self w)) with
  | Returns entries =>
      match delete_loop P entries [] w with
      | (Returns operations, w1) =>
          match wait_for_operation P fuel operations w1 with
          | (Returns _, w2) => (Returns tt, w2)
          | (Raises e, w2) => (Raises e, w2)
          | (OutOfFuel, w2) => (OutOfFuel, w2)
          end
      | (Raises e, w1) => (Raises e, w1)
      | (OutOfFuel, w1) => (OutOfFuel, w1)
      end
  | Raises e => (Raises e, w)
  | OutOfFuel => (OutOfFuel, w)
  end.
Proof.
  unfold delete_all. run. by destruct (iterate (instances (self w))) as [entries|e|].
Qed.

(** Events of [delete_all]: delete calls, status lookups and sleeps. *)
Lemma emits_delete_loop (roster acc : list value) :
  emits (λ e, is_delete e || is_poll e) (delete_loop P roster acc).
Proof.
  revert acc. induction roster as [|instance roster IH]; intros acc; simpl;
    [apply emits_ret|].
  apply emits_bind; [apply emits_lift|]. intros name.
  apply emits_bind.
  { unfold delete_instance.
    apply emits_bind; [apply emits_attr|]. intros p.
    apply emits_bind; [apply emits_attr|]. intros z.
    eapply emits_weaken; [|apply emits_delete]. by intros e ->. }
  intros d. apply emits_bind; [apply emits_lift|]. intros op. apply IH.
Qed.

Lemma emits_delete_all (fuel : nat) :
  emits (λ e, is_delete e || is_poll e) (delete_all P fuel).
Proof.
  unfold delete_all.
  apply emits_bind; [apply emits_attr|]. intros roster.
  apply emits_bind; [apply emits_lift|]. intros entries.
  apply emits_bind; [apply emits_delete_loop|]. intros ops.
  apply emits_bind; [|intros _; apply emits_ret].
  eapply emits_weaken; [|apply emits_wait]. intros e ->. by destruct (is_delete e).
Qed.

(** C9.  Whatever happens, [delete_all] leaves the controller as it was:
    the roster is not cleared and still holds its entries, and the zone,
    project, disk image, machine type and number of instances are
    untouched.  On a roster of [M] named entries, when no delete call
    fails, it issues exactly [M] delete calls, one per entry in roster
    order, and then runs the waiter once on the [M] operations they
    returned, which only polls. *)
Theorem delete_all_calls (fuel : nat) (w : world S) (roster : list value) :
  instances (self w) = VList roster →
  self (snd (delete_all P fuel w)) = self w ∧
  (forallb (λ i, bool_decide (is_Some (name_of i))) roster = true →
   (∀ p z name c, named (fst (instances_delete P p z name c)) = true) →
   ∃ (t : list event) (operations : list value) (w1 : world S),
     delete_loop P roster [] w = (Returns operations, w1) ∧
     trace w1 = trace w ++ t ∧
     forallb is_delete t = true ∧
     length t = length roster ∧
     Some <$> delete_targets t = name_of <$> roster ∧
     operation_of <$> delete_replies t = Some <$> operations ∧
     length operations = length roster ∧
     fst (delete_all P fuel w) =
       match fst (wait_for_operation P fuel operations w1) with
       | Returns _ => Returns tt
       | Raises e => Raises e
       | OutOfFuel => OutOfFuel
       end ∧
     snd (delete_all P fuel w) = snd (wait_for_operation P fuel operations w1) ∧
     ∃ polls, trace (snd (delete_all P fuel w)) = trace w ++ t ++ polls ∧
              forallb is_poll polls = true).
Proof.
  intros Hroster. split; [apply emits_delete_all|]. intros Hnames Hdel.
  destruct (delete_loop_ok roster [] w Hnames Hdel)
    as (t & ops & c1 & Hloop & Hk & Hlen & Htg & Ho & Hl).
  simpl in Hloop.
  exists t, ops, {| self := self w; cloud := c1; trace := trace w ++ t |}.
  rewrite delete_all_unfold, Hroster. simpl. rewrite Hloop.
  destruct (emits_wait fuel ops
              {| self := self w; cloud := c1; trace := trace w ++ t |})
    as (Hself & polls & Hpolls & Hkp).
  destruct (wait_for_operation P fuel ops _) as [[d|e|] w2]; simpl in *;
    repeat split; try done; exists polls; by rewrite Hpolls, <- app_assoc.
Qed.

Lemma delete_all_none (fuel : nat) (w : world S) :
  instances (self w) = VNone → delete_all P fuel w = (Raises TypeError, w).
Proof. intros H. by rewrite delete_all_unfold, H. Qed.

(** A run of [create_all] that does not return leaves [self] as it was:
    the roster is assigned last. *)
Lemma create_all_frame (fuel : nat) (w : world S) :
  fst (create_all P fuel w) ≠ Returns tt →
  self (snd (create_all P fuel w)) = self w.
Proof.
  rewrite create_all_unfold.
  destruct (create_loop_run (range (number_of_instances (self w))) [] w)
    as (Hself & _).
  destruct (create_loop P _ [] w) as [[ops|e|] w1]; simpl in *; try done.
  destruct (emits_wait fuel ops w1) as (Hself1 & _).
  destruct (wait_for_operation P fuel ops w1) as [[d|e|] w2]; simpl in *;
    try congruence.
  destruct (emits_list_instances w2) as (Hself2 & _).
  destruct (list_instances P w2) as [[roster|e|] w3]; simpl in *;
    congruence.
Qed.

(** C10.  On a controller as [__init__] leaves it, whatever the provider,
    [delete_all] fails: the roster is [None], iterating it raises
    TypeError, and no call is issued.  It is so as long as no [create_all]
    has returned: after one that raised, the roster is still [None] and
    [delete_all] fails in the same way. *)
Theorem delete_all_fresh (fuel : nat) (z p d m : string) (n : Z) (c : S) :
  delete_all P fuel (fresh z p d m n c) = (Raises TypeError, fresh z p d m n c) ∧
  ∀ fuel',
    fst (create_all P fuel' (fresh z p d m n c)) ≠ Returns tt →
    delete_all P fuel (snd (create_all P fuel' (fresh z p d m n c))) =
      (Raises TypeError, snd (create_all P fuel' (fresh z p d m n c))).
Proof.
  split; [by apply delete_all_none|].
  intros fuel' Hfail. apply delete_all_none.
  by rewrite (create_all_frame _ _ Hfail).
Qed.

End Theory.

(** * The properties on the simulated provider *)

Lemma wait_for_operation_first_error_witness :
  pending_rounds (simulated stormy) 2 (project (self (controller 3)))
    (zone (self (controller 3))) batch (cloud (controller 3)) = Some settled ∧
  answers (simulated stormy) (project (self (controller 3)))
    (zone (self (controller 3))) batch settled =
    ([done_reply] ++ failed_reply "operation-1" :: [failed_reply "operation-2"], settled) ∧
  fst (wait_for_operation (simulated stormy) 3 batch (controller 3)) =
    Raises (Exception (VStr "failed: operation-1")).
Proof.
  split; [by vm_compute|]. split; [by vm_compute|].
  apply (wait_for_operation_first_error (simulated stormy) batch (controller 3) 2 3
           settled settled [done_reply] [failed_reply "operation-2"]
           (failed_reply "operation-1") (VStr "failed: operation-1"));
    [by vm_compute | by vm_compute | by vm_compute | by vm_compute | by vm_compute | lia].
Defined.

Lemma wait_for_operation_rounds_witness :
  pending_rounds (simulated calm) 2 (project (self (controller 3)))
    (zone (self (controller 3))) batch (cloud (controller 3)) = Some settled ∧
  forallb reports_done [done_reply; done_reply; done_reply] = true ∧
  (∀ fuel, fuel ≤ 2 →
     fst (wait_for_operation (simulated calm) fuel batch (controller 3)) = OutOfFuel) ∧
  (∀ fuel, 2 < fuel →
     fst (wait_for_operation (simulated calm) fuel batch (controller 3)) ≠ OutOfFuel ∧
     trace (snd (wait_for_operation (simulated calm) fuel batch (controller 3))) =
       trace (controller 3) ++
       pending_trace (simulated calm) 2 (project (self (controller 3)))
         (zone (self (controller 3))) batch (cloud (controller 3)) ++
       round_events (project (self (controller 3))) (zone (self (controller 3))) batch
         [done_reply; done_reply; done_reply] ∧
     count is_get (trace (snd (wait_for_operation (simulated calm) fuel batch (controller 3)))) =
       count is_get (trace (controller 3)) + (2 + 1) * length batch ∧
     count is_sleep (trace (snd (wait_for_operation (simulated calm) fuel batch (controller 3)))) =
       count is_sleep (trace (controller 3)) + 2).
Proof.
  split; [by vm_compute|]. split; [by vm_compute|].
  apply (wait_for_operation_rounds (simulated calm) batch (controller 3) 2
           settled settled [done_reply; done_reply; done_reply]);
    by vm_compute.
Defined.

Lemma wait_for_operation_terminates_witness :
  batch ≠ [] ∧
  pending_rounds (simulated calm) 2 (project (self (controller 3)))
    (zone (self (controller 3))) batch (cloud (controller 3)) = Some settled ∧
  existsb carries_error [done_reply; done_reply; done_reply] = false ∧
  ∃ result : dict,
    fst (wait_for_operation (simulated calm) 3 batch (controller 3)) = Returns result ∧
    last [done_reply; done_reply; done_reply] = Some (Answer result) ∧
    self (snd (wait_for_operation (simulated calm) 3 batch (controller 3))) =
      self (controller 3) ∧
    cloud (snd (wait_for_operation (simulated calm) 3 batch (controller 3))) = settled.
Proof.
  split; [done|]. split; [by vm_compute|]. split; [by vm_compute|].
  apply (wait_for_operation_terminates (simulated calm) batch (controller 3) 2 3
           settled settled [done_reply; done_reply; done_reply]);
    [done | by vm_compute | by vm_compute | by vm_compute | by vm_compute | lia].
Defined.

(** C4 (counterexample).  The provider reports zero instances, in an
    ['items'] field that is empty, and [list_instances] returns the empty
    sequence: no GCEManagerError is raised. *)
Lemma list_instances_empty_items :
  reported_instances
    (fst (instances_list (simulated deserted) (project (self (controller 1)))
            (zone (self (controller 1))) (cloud (controller 1)))) = [] ∧
  fst (list_instances (simulated deserted) (controller 1)) = Returns (VList []) ∧
  ¬ ∃ msg, fst (list_instances (simulated deserted) (controller 1)) =
             Raises (GCEManagerError msg).
Proof.
  split; [by vm_compute|]. split; [by vm_compute|].
  intros [msg H]. vm_compute in H. discriminate H.
Qed.

Lemma list_instances_items_witness :
  instances_list (simulated calm) (project (self (controller 2)))
    (zone (self (controller 2))) (cloud (controller 2)) = (Answer (listing calm), boot) ∧
  (∀ items, listing calm !! "items" = Some items →
     fst (list_instances (simulated calm) (controller 2)) = Returns items) ∧
  (listing calm !! "items" = None →
     fst (list_instances (simulated calm) (controller 2)) =
       Raises (GCEManagerError
         ("no instances available in project " +:+ project (self (controller 2))
            +:+ ", zone " +:+ zone (self (controller 2))))).
Proof.
  split; [reflexivity|].
  apply (list_instances_items (simulated calm) (controller 2) (listing calm) boot).
  reflexivity.
Defined.

(** C3 (counterexample).  With two instances to create, one run of
    [create_all] reads the startup-script file twice, not once. *)
Lemma create_all_rereads_script :
  count is_read (trace (snd (create_all (simulated calm) 3 (controller 2)))) = 2 ∧
  count is_read (trace (snd (create_all (simulated calm) 3 (controller 2)))) ≠ 1.
Proof. split; by vm_compute. Qed.

Lemma create_all_reads_script_witness :
  (∀ path c, answered (fst (open_read (simulated calm) path c)) = true) ∧
  (∀ p z body c, named (fst (instances_insert (simulated calm) p z body c)) = true) ∧
  ∃ t, trace (snd (create_all (simulated calm) 3 (controller 2))) =
         trace (controller 2) ++ t ∧
    count is_read t = Z.to_nat (number_of_instances (self (controller 2))) ∧
    count is_insert t = Z.to_nat (number_of_instances (self (controller 2))) ∧
    Forall (λ path, path = "startup-script.sh") (read_paths t) ∧
    scripts_embedded t None = true.
Proof.
  split; [by intros|]. split; [by intros|].
  apply (create_all_reads_script (simulated calm) 3 (controller 2)); by intros.
Defined.

Lemma create_all_calls_witness :
  (∀ path c, answered (fst (open_read (simulated calm) path c)) = true) ∧
  (∀ p z body c, named (fst (instances_insert (simulated calm) p z body c)) = true) ∧
  ∃ (t1 : list event) (operations : list value) (w1 : world sim),
    create_loop (simulated calm) (range (number_of_instances (self (controller 2)))) []
      (controller 2) = (Returns operations, w1) ∧
    trace w1 = trace (controller 2) ++ t1 ∧ self w1 = self (controller 2) ∧
    forallb is_creation t1 = true ∧
    count is_insert t1 = Z.to_nat (number_of_instances (self (controller 2))) ∧
    name_of <$> insert_bodies t1 =
      (λ i, Some (VStr (project (self (controller 2)) +:+ "-" +:+ pretty i)))
        <$> range (number_of_instances (self (controller 2))) ∧
    operation_of <$> insert_replies t1 = Some <$> operations ∧
    (∃ t2, trace (snd (create_all (simulated calm) 3 (controller 2))) = trace w1 ++ t2 ∧
           count is_insert t2 = 0) ∧
    ∀ result w2,
      wait_for_operation (simulated calm) 3 operations w1 = (Returns result, w2) →
      ∃ polls r,
        trace w2 = trace w1 ++ polls ∧ forallb is_poll polls = true ∧
        r = fst (instances_list (simulated calm) (project (self (controller 2)))
                   (zone (self (controller 2))) (cloud w2)) ∧
        trace (snd (create_all (simulated calm) 3 (controller 2))) =
          trace w2 ++ [EvList (project (self (controller 2)))
                         (zone (self (controller 2))) r] ∧
        ∀ d roster, r = Answer d → d !! "items" = Some roster →
          fst (create_all (simulated calm) 3 (controller 2)) = Returns tt ∧
          instances (self (snd (create_all (simulated calm) 3 (controller 2)))) = roster.
Proof.
  split; [by intros|]. split; [by intros|].
  apply (create_all_calls (simulated calm) 3 (controller 2)); by intros.
Defined.

Lemma create_all_fails_fast_witness :
  trace (snd (create_all (simulated rationed) 3 (controller 3))) =
    trace (controller 3) ++
    [EvOpenRead "startup-script.sh" (Answer "#! /bin/bash");
     EvInsert "default" "us-central1-f" (body_for "default-0")
       (Answer {[ "name" := VStr "operation-0" ]});
     EvOpenRead "startup-script.sh" (Answer "#! /bin/bash")] ++
    EvInsert "default" "us-central1-f" (body_for "default-1") (Fault "quota exceeded")
      :: [] ∧
  fst (create_all (simulated rationed) 3 (controller 3)) =
    Raises (HttpError "quota exceeded") ∧
  [] = ([] : list event) ∧
  forallb is_creation
    [EvOpenRead "startup-script.sh" (Answer "#! /bin/bash");
     EvInsert "default" "us-central1-f" (body_for "default-0")
       (Answer {[ "name" := VStr "operation-0" ]});
     EvOpenRead "startup-script.sh" (Answer "#! /bin/bash")] = true ∧
  existsb faulted
    [EvOpenRead "startup-script.sh" (Answer "#! /bin/bash");
     EvInsert "default" "us-central1-f" (body_for "default-0")
       (Answer {[ "name" := VStr "operation-0" ]});
     EvOpenRead "startup-script.sh" (Answer "#! /bin/bash")] = false ∧
  count is_insert
    [EvOpenRead "startup-script.sh" (Answer "#! /bin/bash");
     EvInsert "default" "us-central1-f" (body_for "default-0")
       (Answer {[ "name" := VStr "operation-0" ]});
     EvOpenRead "startup-script.sh" (Answer "#! /bin/bash")]
    < Z.to_nat (number_of_instances (self (controller 3))) ∧
  self (snd (create_all (simulated rationed) 3 (controller 3))) = self (controller 3).
Proof.
  split; [by vm_compute|].
  apply (create_all_fails_fast (simulated rationed) 3 (controller 3)
           [EvOpenRead "startup-script.sh" (Answer "#! /bin/bash");
            EvInsert "default" "us-central1-f" (body_for "default-0")
              (Answer {[ "name" := VStr "operation-0" ]});
            EvOpenRead "startup-script.sh" (Answer "#! /bin/bash")]
           [] "default" "us-central1-f" (body_for "default-1") "quota exceeded").
  by vm_compute.
Defined.

Lemma delete_all_calls_witness :
  instances (self populated) = VList listed ∧
  forallb (λ i, bool_decide (is_Some (name_of i))) listed = true ∧
  (∀ p z name c, named (fst (instances_delete (simulated calm) p z name c)) = true) ∧
  self (snd (delete_all (simulated calm) 3 populated)) = self populated ∧
  ∃ (t : list event) (operations : list value) (w1 : world sim),
    delete_loop (simulated calm) listed [] populated = (Returns operations, w1) ∧
    trace w1 = trace populated ++ t ∧
    forallb is_delete t = true ∧
    length t = length listed ∧
    Some <$> delete_targets t = name_of <$> listed ∧
    operation_of <$> delete_replies t = Some <$> operations ∧
    length operations = length listed ∧
    fst (delete_all (simulated calm) 3 populated) =
      match fst (wait_for_operation (simulated calm) 3 operations w1) with
      | Returns _ => Returns tt
      | Raises e => Raises e
      | OutOfFuel => OutOfFuel
      end ∧
    snd (delete_all (simulated calm) 3 populated) =
      snd (wait_for_operation (simulated calm) 3 operations w1) ∧
    ∃ polls,
      trace (snd (delete_all (simulated calm) 3 populated)) =
        trace populated ++ t ++ polls ∧
      forallb is_poll polls = true.
Proof.
  split; [reflexivity|]. split; [by vm_compute|]. split; [by intros|].
  destruct (delete_all_calls (simulated calm) 3 populated listed eq_refl)
    as [Hframe Hcalls].
  split; [exact Hframe|]. apply Hcalls; [by vm_compute | by intros].
Defined.

Lemma delete_all_fresh_witness :
  fst (create_all (simulated rationed) 3
         (fresh "us-central1-f" "default" "image" "n1-standard-1" 3 boot)) ≠ Returns tt ∧
  delete_all (simulated rationed) 3
    (fresh "us-central1-f" "default" "image" "n1-standard-1" 3 boot) =
    (Raises TypeError, fresh "us-central1-f" "default" "image" "n1-standard-1" 3 boot) ∧
  delete_all (simulated rationed) 3
    (snd (create_all (simulated rationed) 3
            (fresh "us-central1-f" "default" "image" "n1-standard-1" 3 boot))) =
    (Raises TypeError,
     snd (create_all (simulated rationed) 3
            (fresh "us-central1-f" "default" "image" "n1-standard-1" 3 boot))).
Proof.
  split; [by vm_compute|].
  destruct (delete_all_fresh (simulated rationed) 3
              "us-central1-f" "default" "image" "n1-standard-1" 3 boot)
    as [Hnow Hlater].
  split; [exact Hnow|]. apply Hlater. by vm_compute.
Defined.

Lemma wait_for_operation_empty_witness :
  number_of_instances (self (controller 0)) = 0%Z ∧
  wait_for_operation (simulated calm) 3 [] (controller 0)
    = (Raises (UnboundLocalError "result"), controller 0) ∧
  create_all (simulated calm) 3 (controller 0)
    = (Raises (UnboundLocalError "result"), controller 0).
Proof.
  split; [reflexivity|].
  destruct (wait_for_operation_empty (simulated calm) 2 (controller 0)) as [Hwait Hall].
  split; [exact Hwait|]. apply Hall. reflexivity.
Defined.

(** * Further properties *)

Section Further.
Context {S : Type} (P : Provider S).

Ltac step :=
  unfold mbind, M_bind, mret, M_ret, attr, lift, sleep, get_execute,
    list_execute, insert_execute, delete_execute, read_file, set_instances;
  simpl.

(** ** Every run of a round of lookups *)

Lemma poll_cons (op : value) (ops : list value) (w : world S) :
  poll P (op :: ops) w =
  match zoneOperations_get P (project (self w)) (zone (self w)) op (cloud w) with
  | (Answer d, c1) =>
      match poll P ops
              {| self := self w; cloud := c1;
                 trace := trace w ++ [EvGet (project (self w)) (zone (self w)) op (Answer d)] |}
      with
      | (Returns ds, w2) => (Returns (d :: ds), w2)
      | (Raises e, w2) => (Raises e, w2)
      | (OutOfFuel, w2) => (OutOfFuel, w2)
      end
  | (Fault detail, c1) =>
      (Raises (HttpError detail),
       {| self := self w; cloud := c1;
          trace := trace w ++
            [EvGet (project (self w)) (zone (self w)) op (Fault detail)] |})
  end.
Proof.
  simpl. step.
  destruct (zoneOperations_get P _ _ op (cloud w)) as [[d|detail] c1]; simpl; [|done].
  by destruct (poll P ops _) as [[ds|e|] w2].
Qed.

Lemma round_answered (p z : string) (ops : list value) (ds : list dict) :
  forallb is_get (round_events p z ops (Answer <$> ds)) = true ∧
  existsb faulted (round_events p z ops (Answer <$> ds)) = false.
Proof.
  revert ds. by induction ops as [|op ops IH]; intros [|d ds]; simpl.
Qed.

(** A round either answers every lookup, in the order of the operations,
    or stops at the first lookup that fails. *)
Lemma poll_shape (ops : list value) (w : world S) :
  self (snd (poll P ops w)) = self w ∧
  ∃ t, trace (snd (poll P ops w)) = trace w ++ t ∧
    match fst (poll P ops w) with
    | Returns ds =>
        t = round_events (project (self w)) (zone (self w)) ops (Answer <$> ds) ∧
        length ds = length ops ∧
        answers P (project (self w)) (zone (self w)) ops (cloud w)
          = (Answer <$> ds, cloud (snd (poll P ops w)))
    | Raises e =>
        ∃ detail t0 op,
          e = HttpError detail ∧
          t = t0 ++ [EvGet (project (self w)) (zone (self w)) op (Fault detail)] ∧
          forallb is_get t0 = true ∧ existsb faulted t0 = false ∧
          length t0 < length ops
    | OutOfFuel => False
    end.
Proof.
  revert w. induction ops as [|op ops IH]; intros w.
  - simpl. split; [done|]. exists []. by rewrite app_nil_r.
  - rewrite poll_cons.
    destruct (zoneOperations_get P _ _ op (cloud w)) as [[d|detail] c1] eqn:Hget; simpl.
    2:{ split; [done|]. eexists [_]. split; [done|].
        exists detail, [], op. repeat split; simpl; lia. }
    match goal with |- context [poll P ops ?w1] =>
      destruct (IH w1) as (Hself & t & Ht & Hcase)
    end.
    destruct (poll P ops _) as [[ds|e|] w2]; simpl in *; [| |done].
    + destruct Hcase as (-> & Hlen & Hans). split; [done|].
      eexists. rewrite Ht, <- app_assoc. split; [done|].
      split; [done|]. split; [by rewrite Hlen|]. by rewrite Hget, Hans.
    + destruct Hcase as (detail & t0 & op' & -> & -> & Hk & Hf & Hlen).
      split; [done|]. eexists. rewrite Ht, <- app_assoc. split; [done|].
      exists detail, (EvGet (project (self w)) (zone (self w)) op (Answer d) :: t0), op'.
      repeat split; simpl; try done. lia.
Qed.

(** ** Every run of the waiter *)

Lemma eq_str_true (v : value) (s : string) : eq_str v s = true → v = VStr s.
Proof. destruct v; try done. simpl. by intros ->%String.eqb_eq. Qed.

Lemma all_done_inv (ds : list dict) :
  match all_done ds with
  | Returns true => Forall (λ d : dict, d !! "status" = Some (VStr "DONE")) ds
  | Returns false => True
  | Raises e => e = KeyError "status" ∧ ∃ d : dict, d ∈ ds ∧ d !! "status" = None
  | OutOfFuel => False
  end.
Proof.
  induction ds as [|d ds IH]; simpl; [done|].
  unfold getitem. destruct (d !! "status") as [v|] eqn:Hd.
  - destruct (eq_str v "DONE") eqn:Hv; [|done].
    apply eq_str_true in Hv as ->.
    destruct (all_done ds) as [[|]|e|]; try done.
    + by constructor.
    + destruct IH as (-> & d' & Hin & Hd'). split; [done|].
      exists d'. split; [by right|done].
  - split; [done|]. exists d. split; [by left|done].
Qed.

Lemma check_errors_inv (ds : list dict) (b : option dict) :
  match check_errors ds b with
  | Returns r =>
      Forall (λ d : dict, d !! "error" = None) ds ∧
      r = match last ds with Some d => Some d | None => b end
  | Raises e => ∃ (d : dict) payload, d ∈ ds ∧ d !! "error" = Some payload ∧ e = Exception payload
  | OutOfFuel => False
  end.
Proof.
  revert b. induction ds as [|d ds IH]; intros b; simpl; [done|].
  destruct (d !! "error") as [payload|] eqn:Hd; simpl.
  - unfold getitem. rewrite Hd. exists d, payload. split; [by left|done].
  - specialize (IH (Some d)). destruct (check_errors ds (Some d)) as [r|e|]; [| |done].
    + destruct IH as [Hall ->]. split; [by constructor|].
      rewrite last_cons. by destruct (last ds).
    + destruct IH as (d' & payload & Hin & Hd' & ->).
      exists d', payload. split; [by right|done].
Qed.

Lemma wait_unfold (fuel : nat) (ops : list value) (w : world S) :
  wait_for_operation P (Datatypes.S fuel) ops w =
  match poll P ops w with
  | (Returns ds, w1) =>
      match all_done ds with
      | Returns true =>
          (match check_errors ds None with
           | Returns r => return_local "result" r
           | Raises e => Raises e
           | OutOfFuel => OutOfFuel
           end, w1)
      | Returns false =>
          wait_for_operation P fuel ops
            {| self := self w1; cloud := time_sleep P 1 (cloud w1);
               trace := trace w1 ++ [EvSleep 1] |}
      | Raises e => (Raises e, w1)
      | OutOfFuel => (OutOfFuel, w1)
      end
  | (Raises e, w1) => (Raises e, w1)
  | (OutOfFuel, w1) => (OutOfFuel, w1)
  end.
Proof.
  simpl. unfold mbind at 1, M_bind at 1.
  destruct (poll P ops w) as [[ds|e|] w1]; try done.
  step. destruct (all_done ds) as [[|]|e|]; try done.
  by destruct (check_errors ds None).
Qed.

Lemma count_all (kind : event → bool) (t : list event) :
  forallb kind t = true → count kind t = length t.
Proof.
  induction t as [|e t IH]; simpl; [done|].
  intros [He Ht]%andb_prop. by rewrite count_cons, He, IH.
Qed.

Lemma count_nil (kind : event → bool) : count kind [] = 0.
Proof. reflexivity. Qed.

Lemma count_round (p z : string) (ops : list value) (ds : list dict) :
  length ds = length ops →
  count is_get (round_events p z ops (Answer <$> ds)) = length ops ∧
  count is_sleep (round_events p z ops (Answer <$> ds)) = 0.
Proof.
  intros Hlen. split.
  - apply count_round_get. by rewrite length_fmap.
  - by apply count_round_other.
Qed.

(** The shape of every run: rounds of lookups separated by sleeps of one
    second, ended by a round that decides, by a failed lookup, or by the
    fuel. *)
Lemma wait_shape (p z : string) (ops : list value) (fuel : nat) (w : world S) :
  project (self w) = p → zone (self w) = z →
  self (snd (wait_for_operation P fuel ops w)) = self w ∧
  ∃ t, trace (snd (wait_for_operation P fuel ops w)) = trace w ++ t ∧
    forallb (λ e, is_get e || is_second e) t = true ∧
    count is_get t ≤ (count is_sleep t + 1) * length ops ∧
    match fst (wait_for_operation P fuel ops w) with
    | Returns d =>
        existsb faulted t = false ∧
        count is_get t = (count is_sleep t + 1) * length ops ∧
        ∃ t0 ds,
          t = t0 ++ round_events p z ops (Answer <$> ds) ∧
          length ds = length ops ∧
          Forall (λ d : dict, d !! "status" = Some (VStr "DONE")) ds ∧
          Forall (λ d : dict, d !! "error" = None) ds ∧
          last ds = Some d
    | Raises e =>
        (∃ detail t0 op,
           e = HttpError detail ∧
           t = t0 ++ [EvGet p z op (Fault detail)] ∧
           existsb faulted t0 = false) ∨
        (existsb faulted t = false ∧
         count is_get t = (count is_sleep t + 1) * length ops ∧
         ∃ t0 ds,
           t = t0 ++ round_events p z ops (Answer <$> ds) ∧
           length ds = length ops ∧
           ((e = KeyError "status" ∧ ∃ d : dict, d ∈ ds ∧ d !! "status" = None) ∨
            (e = UnboundLocalError "result" ∧ ops = []) ∨
            (∃ (d : dict) payload,
               e = Exception payload ∧
               Forall (λ d : dict, d !! "status" = Some (VStr "DONE")) ds ∧
               d ∈ ds ∧ d !! "error" = Some payload)))
    | OutOfFuel =>
        existsb faulted t = false ∧
        count is_sleep t = fuel ∧ count is_get t = fuel * length ops
    end.
Proof.
  revert w. induction fuel as [|fuel IH]; intros w Hp Hz.
  { simpl. split; [done|]. exists []. rewrite app_nil_r.
    repeat split; unfold count; simpl; lia. }
  rewrite wait_unfold.
  destruct (poll_shape ops w) as (Hself1 & t1 & Ht1 & Hpoll).
  rewrite Hp, Hz in Hpoll.
  destruct (poll P ops w) as [[ds|e|] w1]; simpl in Hself1, Ht1, Hpoll; [| |done].
  2:{ (* a lookup failed *)
    destruct Hpoll as (detail & t0 & op & -> & -> & Hk & Hf & Hlen).
    simpl. split; [done|]. eexists. split; [done|].
    rewrite forallb_app, count_app, count_app, !count_cons, !count_nil. simpl.
    rewrite (count_all is_get t0 Hk).
    rewrite (count_none is_sleep is_get t0) by (exact Hk || by intros []).
    split; [|split; [lia|left; by exists detail, t0, op]].
    rewrite andb_true_r. revert Hk. apply forallb_weaken. by intros e ->. }
  destruct Hpoll as (-> & Hlen & Hans).
  destruct (round_answered p z ops ds) as [Hrk Hrf].
  destruct (count_round p z ops ds Hlen) as [Hrg Hrs].
  assert (forallb (λ e, is_get e || is_second e)
            (round_events p z ops (Answer <$> ds)) = true) as Hrk'.
  { revert Hrk. apply forallb_weaken. by intros e ->. }
  pose proof (all_done_inv ds) as Hall.
  destruct (all_done ds) as [[|]|e|]; [| | |done].
  - (* every operation is DONE *)
    simpl snd. simpl fst. split; [done|]. eexists. split; [done|].
    split; [done|]. rewrite Hrg, Hrs. split; [lia|].
    pose proof (check_errors_inv ds None) as Herr.
    destruct (check_errors ds None) as [r|e|]; [| |done].
    + destruct Herr as [Hclean ->].
      destruct (last ds) as [d|] eqn:Hlast; simpl.
      * split; [done|]. split; [lia|]. exists [], ds. by repeat split.
      * right. split; [done|]. split; [lia|]. exists [], ds.
        split; [done|]. split; [done|]. right. left. split; [done|].
        apply last_None in Hlast as ->. by destruct ops.
    + destruct Herr as (d & payload & Hin & Hd & ->).
      right. split; [done|]. split; [lia|]. exists [], ds.
      split; [done|]. split; [done|]. right. right. by exists d, payload.
  - (* some operation is pending: sleep and poll again *)
    match goal with |- context [wait_for_operation P fuel ops ?w'] =>
      destruct (IH w') as (Hself & t & Ht & Hk & Hle & Hcase);
        [simpl; congruence | simpl; congruence |];
      destruct (wait_for_operation P fuel ops w') as [r w2]
    end.
    simpl in Hself, Ht, Hcase |- *.
    split; [congruence|].
    exists (round_events p z ops (Answer <$> ds) ++ EvSleep 1 :: t).
    rewrite Ht, Ht1, <- !app_assoc. split; [done|].
    rewrite forallb_app, Hrk'. simpl. split; [done|].
    rewrite !count_app, !count_cons, Hrg, Hrs. simpl.
    split; [nia|].
    destruct r as [d|e|].
    + destruct Hcase as (Hf & Hc & t0 & ds' & -> & Hrest).
      rewrite existsb_app, Hrf. simpl. split; [done|]. split; [nia|].
      exists (round_events p z ops (Answer <$> ds) ++ EvSleep 1 :: t0), ds'.
      by rewrite <- app_assoc.
    + destruct Hcase as [(detail & t0 & op & -> & -> & Hf)|(Hf & Hc & t0 & ds' & -> & Hrest)].
      * left. exists detail, (round_events p z ops (Answer <$> ds) ++ EvSleep 1 :: t0), op.
        rewrite <- app_assoc. split; [done|]. split; [done|].
        by rewrite existsb_app, Hrf.
      * right. rewrite existsb_app, Hrf. simpl. split; [done|]. split; [nia|].
        exists (round_events p z ops (Answer <$> ds) ++ EvSleep 1 :: t0), ds'.
        by rewrite <- app_assoc.
    + destruct Hcase as (Hf & Hs & Hg).
      rewrite existsb_app, Hrf. simpl. split; [done|]. split; [lia|nia].
  - (* a reply without status *)
    destruct Hall as (-> & d & Hin & Hd).
    simpl. split; [done|]. eexists. split; [done|]. split; [done|].
    rewrite Hrg, Hrs. split; [lia|]. right. split; [done|]. split; [lia|].
    exists [], ds. split; [done|]. split; [done|]. left. split; [done|]. by exists d.
Qed.

(** X1.  When [wait_for_operation] returns, the batch is not empty and
    the run ends with a round in which every lookup was answered DONE
    with no error payload; the value returned is the reply to the last
    operation of that round, and the controller is as it was. *)
Theorem wait_for_operation_result (fuel : nat) (ops : list value) (w w' : world S)
    (d : dict) :
  wait_for_operation P fuel ops w = (Returns d, w') →
  ops ≠ [] ∧
  d !! "status" = Some (VStr "DONE") ∧ d !! "error" = None ∧
  self w' = self w ∧
  ∃ t0 ds,
    trace w' = trace w ++ t0 ++
      round_events (project (self w)) (zone (self w)) ops (Answer <$> ds) ∧
    length ds = length ops ∧
    Forall (λ d : dict, d !! "status" = Some (VStr "DONE") ∧ d !! "error" = None) ds ∧
    last ds = Some d.
Proof.
  intros Hrun.
  destruct (wait_shape _ _ ops fuel w eq_refl eq_refl) as (Hself & t & Ht & _ & _ & Hcase).
  rewrite Hrun in Hself, Ht, Hcase. simpl in Hself, Ht, Hcase.
  destruct Hcase as (_ & _ & t0 & ds & -> & Hlen & Hdone & Hclean & Hlast).
  assert (d ∈ ds) as Hin.
  { apply last_Some in Hlast as [ds' ->]. apply elem_of_app. right. by left. }
  split. { intros ->. by destruct ds. }
  split; [by apply (proj1 (Forall_forall _ _) Hdone)|].
  split; [by apply (proj1 (Forall_forall _ _) Hclean)|].
  split; [done|]. exists t0, ds. split; [done|]. split; [done|]. split; [|done].
  apply Forall_forall. intros d' Hd'. split.
  - by apply (proj1 (Forall_forall _ _) Hdone).
  - by apply (proj1 (Forall_forall _ _) Hclean).
Qed.

(** X2.  What [wait_for_operation] can raise.  Either a lookup failed: the
    error is its HttpError and the failed lookup is the last event.  Or no
    call failed and the last round was answered in full: then the error
    is KeyError for a reply of that round without status, or
    UnboundLocalError and the batch is empty, or an Exception whose
    argument is the error payload of a reply of that round, all of them
    DONE. *)
Theorem wait_for_operation_raises (fuel : nat) (ops : list value) (w w' : world S)
    (e : exn) :
  wait_for_operation P fuel ops w = (Raises e, w') →
  ∃ t, trace w' = trace w ++ t ∧
    ((∃ detail t0 op,
        e = HttpError detail ∧
        t = t0 ++ [EvGet (project (self w)) (zone (self w)) op (Fault detail)] ∧
        existsb faulted t0 = false) ∨
     (existsb faulted t = false ∧
      ∃ t0 ds,
        t = t0 ++ round_events (project (self w)) (zone (self w)) ops (Answer <$> ds) ∧
        length ds = length ops ∧
        ((e = KeyError "status" ∧ ∃ d : dict, d ∈ ds ∧ d !! "status" = None) ∨
         (e = UnboundLocalError "result" ∧ ops = []) ∨
         (∃ (d : dict) payload,
            e = Exception payload ∧
            Forall (λ d : dict, d !! "status" = Some (VStr "DONE")) ds ∧
            d ∈ ds ∧ d !! "error" = Some payload)))).
Proof.
  intros Hrun.
  destruct (wait_shape _ _ ops fuel w eq_refl eq_refl) as (_ & t & Ht & _ & _ & Hcase).
  rewrite Hrun in Ht, Hcase. simpl in Ht, Hcase.
  exists t. split; [done|].
  destruct Hcase as [Hfault|(Hf & _ & Hrest)]; [by left|right]. by split.
Qed.

(** X3.  The cost of waiting.  Every run of [wait_for_operation] only
    looks operations up and sleeps, one second at a time; it never issues
    more lookups than one per operation for each sleep and one round
    more; and unless it is cut short by a failed lookup or by the fuel,
    it issues exactly that many. *)
Theorem wait_for_operation_cost (fuel : nat) (ops : list value) (w : world S) :
  ∃ t, trace (snd (wait_for_operation P fuel ops w)) = trace w ++ t ∧
    forallb (λ e, is_get e || is_second e) t = true ∧
    count is_get t ≤ (count is_sleep t + 1) * length ops ∧
    (fst (wait_for_operation P fuel ops w) ≠ OutOfFuel →
     (∀ detail, fst (wait_for_operation P fuel ops w) ≠ Raises (HttpError detail)) →
     count is_get t = (count is_sleep t + 1) * length ops).
Proof.
  destruct (wait_shape _ _ ops fuel w eq_refl eq_refl) as (_ & t & Ht & Hk & Hle & Hcase).
  exists t. split; [done|]. split; [done|]. split; [done|].
  intros Hfuel Hhttp.
  destruct (fst (wait_for_operation P fuel ops w)) as [d|e|]; [| |done].
  - by destruct Hcase as (_ & Hc & _).
  - destruct Hcase as [(detail & t0 & op & -> & _)|(_ & Hc & _)]; [|done].
    by destruct (Hhttp detail).
Qed.

(** X4.  There is no timeout.  Against a provider that keeps the batch
    pending round after round, [wait_for_operation] never ends: whatever
    the fuel, it runs out of it, having slept once per unit of fuel and
    looked every operation up before each sleep. *)
Theorem wait_for_operation_blocks (ops : list value) (w : world S) :
  (∀ k, is_Some (pending_rounds P k (project (self w)) (zone (self w)) ops (cloud w))) →
  ∀ fuel,
    fst (wait_for_operation P fuel ops w) = OutOfFuel ∧
    ∃ t, trace (snd (wait_for_operation P fuel ops w)) = trace w ++ t ∧
      count is_sleep t = fuel ∧ count is_get t = fuel * length ops.
Proof.
  intros Hpending fuel.
  destruct (Hpending fuel) as [ck Hck].
  pose proof (wait_starved P fuel fuel ops w ck Hck (le_n _)) as Hout.
  split; [done|].
  destruct (wait_shape _ _ ops fuel w eq_refl eq_refl) as (_ & t & Ht & _ & _ & Hcase).
  rewrite Hout in Hcase. exists t. split; [done|]. by destruct Hcase as (_ & ? & ?).
Qed.

Lemma all_done_prefix (pre rest : list dict) :
  forallb reports_done (Answer <$> pre) = true →
  all_done (pre ++ rest) = all_done rest.
Proof.
  induction pre as [|d pre IH]; simpl; [done|].
  unfold getitem. destruct (d !! "status") as [v|]; [|done].
  destruct (eq_str v "DONE"); simpl; [apply IH | done].
Qed.

(** X5.  The test that ends the wait stops at the first reply that is not
    DONE.  In a round whose replies are DONE up to some reply: if that
    reply has no ['status'] field, KeyError is raised, after the whole
    round has been looked up; if it has a status other than DONE, the
    waiter sleeps and polls again, whatever the replies after it are,
    also when they have no status. *)
Theorem wait_for_operation_short_circuit (fuel : nat) (ops : list value) (w : world S)
    (pre post : list dict) (d : dict) (c' : S) :
  answers P (project (self w)) (zone (self w)) ops (cloud w)
    = (Answer <$> (pre ++ d :: post), c') →
  forallb reports_done (Answer <$> pre) = true →
  (d !! "status" = None →
   wait_for_operation P (Datatypes.S fuel) ops w =
     (Raises (KeyError "status"),
      {| self := self w; cloud := c';
         trace := trace w ++
           round_events (project (self w)) (zone (self w)) ops
             (Answer <$> (pre ++ d :: post)) |})) ∧
  (reports_status (Answer d) = true → reports_done (Answer d) = false →
   wait_for_operation P (Datatypes.S fuel) ops w =
     wait_for_operation P fuel ops
       {| self := self w; cloud := time_sleep P 1 c';
          trace := (trace w ++
            round_events (project (self w)) (zone (self w)) ops
              (Answer <$> (pre ++ d :: post))) ++ [EvSleep 1] |}).
Proof.
  intros Ha Hpre.
  rewrite wait_unfold, (poll_answered P _ _ _ _ Ha), (all_done_prefix _ _ Hpre).
  simpl. unfold getitem. split.
  - by intros ->.
  - destruct (d !! "status") as [v|]; [|done]. by intros _ ->.
Qed.

(** ** Every run of the creation loop *)

(** The loop runs one read and one insert per index, in order, until it
    is past the last index or a step fails; the failed step is the last
    event. *)
Lemma create_loop_shape (indices : list Z) (acc : list value) (w : world S) :
  self (snd (create_loop P indices acc w)) = self w ∧
  ∃ t, trace (snd (create_loop P indices acc w)) = trace w ++ t ∧
    forallb is_creation t = true ∧
    forallb (proper (project (self w)) (zone (self w))) t = true ∧
    name_of <$> insert_bodies t `prefix_of` instance_names (project (self w)) indices ∧
    match fst (create_loop P indices acc w) with
    | Returns ops =>
        existsb breaks t = false ∧
        count is_insert t = length indices ∧ count is_read t = length indices ∧
        name_of <$> insert_bodies t = instance_names (project (self w)) indices ∧
        ∃ ops', ops = acc ++ ops' ∧ length ops' = length indices ∧
                operation_of <$> insert_replies t = Some <$> ops'
    | Raises e =>
        ∃ t0 ev, t = t0 ++ [ev] ∧ existsb breaks t0 = false ∧ breaks ev = true ∧
          count is_insert t0 < length indices ∧
          ((∃ detail, ev = EvOpenRead "startup-script.sh" (Fault detail) ∧
                      e = OSError detail ∧ count is_read t0 = count is_insert t0) ∨
           (∃ body detail,
              ev = EvInsert (project (self w)) (zone (self w)) body (Fault detail) ∧
              e = HttpError detail) ∨
           (∃ body d,
              ev = EvInsert (project (self w)) (zone (self w)) body (Answer d) ∧
              d !! "name" = None ∧ e = KeyError "name"))
    | OutOfFuel => False
    end.
Proof.
  revert acc w. induction indices as [|i indices IH]; intros acc w.
  { simpl. split; [done|]. exists []. rewrite app_nil_r.
    repeat split; try done. exists []. by rewrite app_nil_r. }
  rewrite create_loop_cons.
  pose proof (create_instance_run P (project (self w) +:+ "-" +:+ pretty i) w) as Hrun.
  simpl in Hrun.
  destruct (open_read P "startup-script.sh" (cloud w)) as [[s|detail] c1].
  2:{ rewrite Hrun. simpl. split; [done|]. eexists [_]. split; [done|].
      split; [done|]. split; [done|]. split; [apply prefix_nil|].
      exists [], (EvOpenRead "startup-script.sh" (Fault detail)).
      repeat split; try done; [rewrite count_nil; lia|]. left. by exists detail. }
  set (body := config _ _ _ s _) in Hrun.
  assert (name_of body = Some (VStr (project (self w) +:+ "-" +:+ pretty i)))
    as Hbn by apply name_of_config.
  clearbody body.
  destruct (instances_insert P (project (self w)) (zone (self w)) body c1)
    as [[d|detail] c2]; simpl in Hrun; rewrite Hrun; simpl.
  2:{ split; [done|]. eexists [_; _]. split; [done|]. split; [done|].
      split; [simpl; by rewrite !String.eqb_refl|].
      split. { unfold insert_bodies. simpl. rewrite Hbn. apply prefix_cons, prefix_nil. }
      exists [EvOpenRead "startup-script.sh" (Answer s)],
        (EvInsert (project (self w)) (zone (self w)) body (Fault detail)).
      repeat split; try done; [rewrite count_cons, count_nil; simpl; lia|].
      right. left. by exists body, detail. }
  destruct (d !! "name") as [op|] eqn:Hop; simpl.
  2:{ split; [done|]. eexists [_; _]. split; [done|]. split; [done|].
      split; [simpl; by rewrite !String.eqb_refl|].
      split. { unfold insert_bodies. simpl. rewrite Hbn. apply prefix_cons, prefix_nil. }
      exists [EvOpenRead "startup-script.sh" (Answer s)],
        (EvInsert (project (self w)) (zone (self w)) body (Answer d)).
      split; [done|]. split; [done|].
      split. { unfold breaks. simpl. by rewrite Hop. }
      split; [rewrite count_cons, count_nil; simpl; lia|].
      right. right. by exists body, d. }
  match goal with |- context [create_loop P indices ?a ?w1] =>
    destruct (IH a w1) as (Hself & t & Ht & Hk & Hpr & Hnames & Hcase);
    destruct (create_loop P indices a w1) as [r w2]
  end.
  simpl in Hself, Ht, Hk, Hpr, Hnames, Hcase |- *. split; [done|].
  exists (EvOpenRead "startup-script.sh" (Answer s)
            :: EvInsert (project (self w)) (zone (self w)) body (Answer d) :: t).
  rewrite Ht, <- !app_assoc. split; [done|]. simpl. split; [done|].
  rewrite !String.eqb_refl. split; [done|].
  rewrite Hbn. split; [by apply prefix_cons|].
  assert (breaks (EvInsert (project (self w)) (zone (self w)) body (Answer d)) = false)
    as Hnb by (unfold breaks; simpl; by rewrite Hop).
  destruct r as [ops|e|]; [| |done].
  - destruct Hcase as (Hb & Hci & Hcr & Hn & ops' & -> & Hlen & Ho).
    rewrite !count_cons, Hci, Hcr, Hnb. simpl.
    split; [done|]. split; [done|]. split; [done|]. split; [by f_equal|].
    exists (op :: ops'). rewrite <- app_assoc. simpl. rewrite Hlen.
    split; [done|]. split; [done|]. by f_equal.
  - destruct Hcase as (t0 & ev & -> & Hb & Hev & Hc & Hkind).
    exists (EvOpenRead "startup-script.sh" (Answer s)
              :: EvInsert (project (self w)) (zone (self w)) body (Answer d) :: t0), ev.
    simpl. rewrite Hnb, !count_cons. simpl. repeat split; try done; [lia|].
    destruct Hkind as [(detail & -> & -> & Hcount)|Hkind]; [|by right].
    left. exists detail. by rewrite Hcount.
Qed.

(** ** Every run of [list_instances] and of [create_all] *)

Lemma list_instances_run (w : world S) :
  list_instances P w =
  (match fst (instances_list P (project (self w)) (zone (self w)) (cloud w)) with
   | Answer b =>
       match b !! "items" with
       | Some items => Returns items
       | None =>
           Raises (GCEManagerError
             ("no instances available in project " +:+ project (self w)
                +:+ ", zone " +:+ zone (self w)))
       end
   | Fault detail => Raises (HttpError detail)
   end,
   {| self := self w;
      cloud := snd (instances_list P (project (self w)) (zone (self w)) (cloud w));
      trace := trace w ++
        [EvList (project (self w)) (zone (self w))
           (fst (instances_list P (project (self w)) (zone (self w)) (cloud w)))] |}).
Proof.
  unfold list_instances. step.
  destruct (instances_list P _ _ (cloud w)) as [[b|detail] c3]; simpl; [|done].
  by destruct (b !! "items").
Qed.

Lemma polls_weaken (t : list event) :
  forallb (λ e, is_get e || is_second e) t = true → forallb is_poll t = true.
Proof. apply forallb_weaken. by intros []. Qed.

(** A stretch of lookups and sleeps holds no call of another kind. *)
Lemma polls_silent (t : list event) :
  forallb is_poll t = true →
  count is_insert t = 0 ∧ count is_read t = 0 ∧ count is_list t = 0 ∧
  count is_delete t = 0 ∧ insert_bodies t = [] ∧ delete_targets t = [].
Proof.
  intros Hk. repeat split;
    try (apply (count_none _ is_poll t); [by intros []|done]).
  - induction t as [|e t IH]; [done|]. simpl in Hk. apply andb_prop in Hk as [He Ht].
    unfold insert_bodies in *. simpl. destruct e; try done; by apply IH.
  - induction t as [|e t IH]; [done|]. simpl in Hk. apply andb_prop in Hk as [He Ht].
    unfold delete_targets in *. simpl. destruct e; try done; by apply IH.
Qed.

Lemma creation_silent (t : list event) :
  forallb is_creation t = true →
  count is_list t = 0 ∧ count is_delete t = 0 ∧ count is_get t = 0.
Proof.
  intros Hk. repeat split; apply (count_none _ is_creation t); try done; by intros [].
Qed.

Lemma breaks_faulted (t : list event) :
  existsb breaks t = false → existsb faulted t = false.
Proof.
  induction t as [|e t IH]; simpl; [done|].
  unfold breaks at 1. intros [[-> _]%orb_false_elim Ht]%orb_false_elim. by apply IH.
Qed.

Lemma last_element {A : Type} (l : list A) (x : A) : last l = Some x → x ∈ l.
Proof. intros [l' ->]%last_Some. apply elem_of_app. right. by left. Qed.

(** X6.  When [create_all] returns, a positive number of instances was
    asked for; every read and every call of the run went through; there
    was one read and one insert per instance, named [project-0],
    [project-1], ... in this order, no delete, and one list call, the last
    event; the roster is the ['items'] of its reply, and the rest of the
    controller is as it was. *)
Theorem create_all_returns (fuel : nat) (w w' : world S) :
  create_all P fuel w = (Returns tt, w') →
  (0 < number_of_instances (self w))%Z ∧
  ∃ t b,
    trace w' = trace w ++ t ++ [EvList (project (self w)) (zone (self w)) (Answer b)] ∧
    b !! "items" = Some (instances (self w')) ∧
    existsb faulted t = false ∧
    count is_insert t = Z.to_nat (number_of_instances (self w)) ∧
    count is_read t = Z.to_nat (number_of_instances (self w)) ∧
    count is_list t = 0 ∧ count is_delete t = 0 ∧
    name_of <$> insert_bodies t =
      instance_names (project (self w)) (range (number_of_instances (self w))) ∧
    zone (self w') = zone (self w) ∧ project (self w') = project (self w) ∧
    disk_image (self w') = disk_image (self w) ∧
    machine_type (self w') = machine_type (self w) ∧
    number_of_instances (self w') = number_of_instances (self w).
Proof.
  rewrite create_all_unfold.
  destruct (create_loop_shape (range (number_of_instances (self w))) [] w)
    as (Hself1 & t1 & Ht1 & Hk1 & _ & _ & Hloop).
  destruct (create_loop P _ [] w) as [[ops|e|] w1]; simpl in Hself1, Ht1, Hloop; [|done|done].
  destruct Hloop as (Hb1 & Hci & Hcr & Hnames & ops' & -> & Hlen & _).
  simpl.
  destruct (wait_shape _ _ ops' fuel w1 eq_refl eq_refl)
    as (Hself2 & t2 & Ht2 & Hk2 & _ & Hwait).
  destruct (wait_for_operation P fuel ops' w1) as [[d|e|] w2];
    simpl in Hself2, Ht2, Hwait |- *; [|done|done].
  destruct Hwait as (Hf2 & _ & _ & ds & _ & Hlends & _ & _ & Hlast).
  rewrite list_instances_run, Hself2, Hself1.
  destruct (instances_list P _ _ (cloud w2)) as [[b|detail] c3]; simpl; [|done].
  destruct (b !! "items") as [items|] eqn:Hitems; [|done].
  intros [= <-]. simpl.
  split.
  { apply last_element in Hlast. rewrite range_length in Hlen.
    destruct ds; [by apply elem_of_nil in Hlast|]. simpl in *. lia. }
  apply polls_weaken in Hk2.
  destruct (polls_silent t2 Hk2) as (Hi2 & Hr2 & Hl2 & Hd2 & Hbodies2 & _).
  destruct (creation_silent t1 Hk1) as (Hl1 & Hd1 & _).
  exists (t1 ++ t2), b. rewrite Ht2, Ht1, <- !app_assoc.
  split; [done|]. split; [done|].
  rewrite existsb_app, (breaks_faulted _ Hb1), Hf2.
  rewrite !count_app, Hci, Hcr, Hi2, Hr2, Hl1, Hl2, Hd1, Hd2, range_length.
  unfold insert_bodies in *. rewrite omap_app, Hbodies2, app_nil_r.
  repeat split; try done; lia.
Qed.

Lemma tail_silent (t : list event) :
  forallb (λ e, is_poll e || is_list e) t = true →
  insert_bodies t = [] ∧ count is_insert t = 0 ∧ count is_read t = 0 ∧
  count is_delete t = 0.
Proof.
  intros Hk. split; [|repeat split;
    apply (count_none _ (λ e, is_poll e || is_list e) t); try done; by intros []].
  induction t as [|e t IH]; [done|]. simpl in Hk. apply andb_prop in Hk as [He Ht].
  unfold insert_bodies in *. simpl. destruct e; try done; by apply IH.
Qed.

Lemma count_insert_bodies (t : list event) :
  count is_insert t = length (insert_bodies t).
Proof.
  induction t as [|e t IH]; [done|]. rewrite count_cons, IH.
  unfold insert_bodies. by destruct e.
Qed.

Lemma instance_names_NoDup (p : string) (n : Z) : NoDup (instance_names p (range n)).
Proof.
  unfold instance_names, range. apply NoDup_fmap_2; [|apply NoDup_seqZ].
  intros i j [= H]. apply (inj (String.app p)) in H.
  apply (inj (String.app "-")) in H. by apply (inj pretty) in H.
Qed.

(** X7.  In every run of [create_all], whatever its outcome, the names
    given to the instances in the insert calls are an initial segment of
    [project-0], [project-1], ..., so there are at most
    [number_of_instances] inserts, and no name is used twice. *)
Theorem create_all_names (fuel : nat) (w : world S) :
  ∃ t, trace (snd (create_all P fuel w)) = trace w ++ t ∧
    name_of <$> insert_bodies t `prefix_of`
      instance_names (project (self w)) (range (number_of_instances (self w))) ∧
    NoDup (name_of <$> insert_bodies t) ∧
    count is_insert t ≤ Z.to_nat (number_of_instances (self w)).
Proof.
  destruct (create_loop_shape (range (number_of_instances (self w))) [] w)
    as (_ & t1 & Ht1 & _ & _ & Hpre & Hloop).
  assert (∃ t, trace (snd (create_all P fuel w)) = trace w ++ t ∧
               insert_bodies t = insert_bodies t1) as (t & Ht & Hbodies).
  { destruct (create_loop P _ [] w) as [[ops|e|] w1] eqn:Hrun; simpl in *; [| |done].
    - destruct (create_all_after_loop P fuel _ _ _ Hrun) as (t2 & Ht2 & Hk2).
      exists (t1 ++ t2). rewrite Ht2, Ht1, <- app_assoc. split; [done|].
      unfold insert_bodies. rewrite omap_app. fold (insert_bodies t2).
      destruct (tail_silent t2 Hk2) as [-> _]. by rewrite app_nil_r.
    - rewrite (create_all_loop_raises P fuel _ _ _ Hrun). by exists t1. }
  exists t. rewrite Hbodies. split; [done|]. split; [done|]. split.
  - destruct Hpre as [k Hk]. pose proof (instance_names_NoDup (project (self w))
      (number_of_instances (self w))) as Hnd.
    rewrite Hk in Hnd. by apply NoDup_app in Hnd as [? _].
  - rewrite count_insert_bodies, Hbodies.
    apply prefix_length in Hpre. unfold instance_names in Hpre.
    rewrite !length_fmap, range_length in Hpre. done.
Qed.

(** A step of the creation loop that fails ends [create_all]. *)
Lemma create_all_break (fuel : nat) (w : world S) (pre post : list event) (ev : event) :
  trace (snd (create_all P fuel w)) = trace w ++ pre ++ ev :: post →
  breaks ev = true → is_creation ev = true →
  post = [] ∧
  self (snd (create_all P fuel w)) = self w ∧
  forallb is_creation pre = true ∧ existsb breaks pre = false ∧
  count is_insert pre < Z.to_nat (number_of_instances (self w)) ∧
  ((∃ detail, ev = EvOpenRead "startup-script.sh" (Fault detail) ∧
              fst (create_all P fuel w) = Raises (OSError detail) ∧
              count is_read pre = count is_insert pre) ∨
   (∃ body detail,
      ev = EvInsert (project (self w)) (zone (self w)) body (Fault detail) ∧
      fst (create_all P fuel w) = Raises (HttpError detail)) ∨
   (∃ body d,
      ev = EvInsert (project (self w)) (zone (self w)) body (Answer d) ∧
      d !! "name" = None ∧
      fst (create_all P fuel w) = Raises (KeyError "name"))).
Proof.
  intros Htrace Hev Hkind.
  destruct (create_loop_shape (range (number_of_instances (self w))) [] w)
    as (Hself & t & Ht & Hk & _ & _ & Hcase).
  destruct (create_loop P _ [] w) as [[ops|e|] w1] eqn:Hloop; simpl in *; [| |done].
  - destruct Hcase as (Hb & _).
    destruct (create_all_after_loop P fuel _ _ _ Hloop) as (t2 & Ht2 & Hk2).
    rewrite Ht2, Ht, <- app_assoc in Htrace. apply app_inv_head in Htrace.
    assert (In ev (t ++ t2)) as Hin by (rewrite Htrace; apply in_elt).
    apply in_app_or in Hin as [Hin|Hin].
    + assert (existsb breaks t = true); [|congruence].
      apply existsb_exists. by exists ev.
    + pose proof (proj1 (forallb_forall _ _) Hk2 _ Hin) as Hpoll.
      destruct ev; done.
  - rewrite (create_all_loop_raises P fuel _ _ _ Hloop) in Htrace |- *. simpl in *.
    rewrite Ht in Htrace. apply app_inv_head in Htrace.
    destruct Hcase as (t0 & ev' & -> & Hb & _ & Hc & Hwhich).
    destruct (last_fault_unique breaks t0 pre post ev' ev Hb Hev Htrace)
      as (-> & -> & ->).
    rewrite range_length in Hc. rewrite forallb_app in Hk.
    apply andb_prop in Hk as [Hk _].
    repeat split; try done.
    destruct Hwhich as [(detail & -> & -> & Hcount)|[(body & detail & -> & ->)|
                        (body & d & -> & Hd & ->)]].
    + left. by exists detail.
    + right. left. by exists body, detail.
    + right. right. by exists body, d.
Qed.

(** X8.  If the startup script cannot be read, [create_all] raises the
    OSError at once: the failed read is the last event of the run, so the
    instance it was read for is not inserted; before it every read had its
    insert, fewer than [number_of_instances] of them, none undone; and the
    controller is as it was. *)
Theorem create_all_read_fails (fuel : nat) (w : world S) (pre post : list event)
    (path detail : string) :
  trace (snd (create_all P fuel w)) =
    trace w ++ pre ++ EvOpenRead path (Fault detail) :: post →
  fst (create_all P fuel w) = Raises (OSError detail) ∧
  post = [] ∧ path = "startup-script.sh" ∧
  forallb is_creation pre = true ∧ existsb breaks pre = false ∧
  count is_read pre = count is_insert pre ∧
  count is_insert pre < Z.to_nat (number_of_instances (self w)) ∧
  self (snd (create_all P fuel w)) = self w.
Proof.
  intros Htrace.
  destruct (create_all_break fuel w pre post _ Htrace eq_refl eq_refl)
    as (-> & Hself & Hk & Hb & Hc & [(d' & [= -> ->] & Hr & Hcount)|
         [(body & d' & [=] & _)|(body & d' & [=] & _)]]).
  done.
Qed.

(** X9.  If an insert call is answered with a body that has no ['name']
    field, [create_all] raises KeyError at once, although the call went
    through: that insert is the last event of the run, no status lookup,
    no list call and no delete follows, and the controller is as it was. *)
Theorem create_all_unnamed_reply (fuel : nat) (w : world S) (pre post : list event)
    (p z : string) (body : value) (d : dict) :
  trace (snd (create_all P fuel w)) =
    trace w ++ pre ++ EvInsert p z body (Answer d) :: post →
  d !! "name" = None →
  fst (create_all P fuel w) = Raises (KeyError "name") ∧
  post = [] ∧
  forallb is_creation pre = true ∧ existsb breaks pre = false ∧
  count is_insert pre < Z.to_nat (number_of_instances (self w)) ∧
  self (snd (create_all P fuel w)) = self w.
Proof.
  intros Htrace Hd.
  assert (breaks (EvInsert p z body (Answer d)) = true) as Hev.
  { unfold breaks. simpl. by rewrite Hd. }
  destruct (create_all_break fuel w pre post _ Htrace Hev eq_refl)
    as (-> & Hself & Hk & Hb & Hc & [(d' & [=] & _)|
         [(body' & d' & [=] & _)|(body' & d' & _ & _ & Hr)]]).
  done.
Qed.

End Further.

(** * The further properties on the simulated providers *)

Lemma wait_for_operation_result_witness :
  wait_for_operation (simulated prompt) 1 batch (controller 3) =
    (Returns {[ "status" := VStr "DONE" ]},
     snd (wait_for_operation (simulated prompt) 1 batch (controller 3))) ∧
  batch ≠ [] ∧
  ({[ "status" := VStr "DONE" ]} : dict) !! "status" = Some (VStr "DONE") ∧
  ({[ "status" := VStr "DONE" ]} : dict) !! "error" = None ∧
  self (snd (wait_for_operation (simulated prompt) 1 batch (controller 3))) =
    self (controller 3) ∧
  ∃ t0 ds,
    trace (snd (wait_for_operation (simulated prompt) 1 batch (controller 3))) =
      trace (controller 3) ++ t0 ++
      round_events (project (self (controller 3))) (zone (self (controller 3))) batch
        (Answer <$> ds) ∧
    length ds = length batch ∧
    Forall (λ d : dict, d !! "status" = Some (VStr "DONE") ∧ d !! "error" = None) ds ∧
    last ds = Some ({[ "status" := VStr "DONE" ]} : dict).
Proof.
  split; [by vm_compute|].
  apply (wait_for_operation_result (simulated prompt) 1 batch (controller 3)).
  by vm_compute.
Defined.

Lemma wait_for_operation_raises_witness :
  wait_for_operation (simulated stormy) 3 batch (controller 3) =
    (Raises (Exception (VStr "failed: operation-1")),
     snd (wait_for_operation (simulated stormy) 3 batch (controller 3))) ∧
  ∃ t,
    trace (snd (wait_for_operation (simulated stormy) 3 batch (controller 3))) =
      trace (controller 3) ++ t ∧
    ((∃ detail t0 op,
        Exception (VStr "failed: operation-1") = HttpError detail ∧
        t = t0 ++ [EvGet (project (self (controller 3))) (zone (self (controller 3)))
                     op (Fault detail)] ∧
        existsb faulted t0 = false) ∨
     (existsb faulted t = false ∧
      ∃ t0 ds,
        t = t0 ++ round_events (project (self (controller 3)))
                    (zone (self (controller 3))) batch (Answer <$> ds) ∧
        length ds = length batch ∧
        ((Exception (VStr "failed: operation-1") = KeyError "status" ∧
          ∃ d : dict, d ∈ ds ∧ d !! "status" = None) ∨
         (Exception (VStr "failed: operation-1") = UnboundLocalError "result" ∧
          batch = []) ∨
         (∃ (d : dict) payload,
            Exception (VStr "failed: operation-1") = Exception payload ∧
            Forall (λ d : dict, d !! "status" = Some (VStr "DONE")) ds ∧
            d ∈ ds ∧ d !! "error" = Some payload)))).
Proof.
  split; [by vm_compute|].
  apply (wait_for_operation_raises (simulated stormy) 3 batch (controller 3)).
  by vm_compute.
Defined.

Lemma stalled_pending (k : nat) (c : sim) :
  is_Some (pending_rounds stalled k "default" "us-central1-f" batch c).
Proof.
  revert c. induction k as [|k IH]; intros c; [by eexists|]. apply IH.
Qed.

Lemma wait_for_operation_blocks_witness :
  (∀ k, is_Some (pending_rounds stalled k (project (self (controller 3)))
                   (zone (self (controller 3))) batch (cloud (controller 3)))) ∧
  ∀ fuel,
    fst (wait_for_operation stalled fuel batch (controller 3)) = OutOfFuel ∧
    ∃ t, trace (snd (wait_for_operation stalled fuel batch (controller 3))) =
           trace (controller 3) ++ t ∧
      count is_sleep t = fuel ∧ count is_get t = fuel * length batch.
Proof.
  split; [intros k; apply stalled_pending|].
  apply (wait_for_operation_blocks stalled batch (controller 3)).
  intros k. apply stalled_pending.
Defined.

Lemma wait_for_operation_short_circuit_witness :
  answers ragged (project (self (controller 3))) (zone (self (controller 3))) batch
    (cloud (controller 3)) =
    (Answer <$> ([{[ "status" := VStr "DONE" ]}] ++
                 {[ "status" := VStr "RUNNING" ]} :: [∅]), boot) ∧
  forallb reports_done (Answer <$> [({[ "status" := VStr "DONE" ]} : dict)]) = true ∧
  reports_status (Answer ({[ "status" := VStr "RUNNING" ]} : dict)) = true ∧
  reports_done (Answer ({[ "status" := VStr "RUNNING" ]} : dict)) = false ∧
  wait_for_operation ragged 2 batch (controller 3) =
    wait_for_operation ragged 1 batch
      {| self := self (controller 3); cloud := time_sleep ragged 1 boot;
         trace := (trace (controller 3) ++
           round_events (project (self (controller 3))) (zone (self (controller 3)))
             batch
             (Answer <$> ([{[ "status" := VStr "DONE" ]}] ++
                          {[ "status" := VStr "RUNNING" ]} :: [∅]))) ++ [EvSleep 1] |}.
Proof.
  split; [by vm_compute|]. split; [by vm_compute|]. split; [by vm_compute|].
  split; [by vm_compute|].
  apply (wait_for_operation_short_circuit ragged 1 batch (controller 3)
           [{[ "status" := VStr "DONE" ]}] [∅] {[ "status" := VStr "RUNNING" ]} boot);
    by vm_compute.
Defined.

Lemma wait_for_operation_cost_witness :
  fst (wait_for_operation (simulated calm) 5 batch (controller 3)) ≠ OutOfFuel ∧
  (∀ detail, fst (wait_for_operation (simulated calm) 5 batch (controller 3))
             ≠ Raises (HttpError detail)) ∧
  ∃ t, trace (snd (wait_for_operation (simulated calm) 5 batch (controller 3))) =
         trace (controller 3) ++ t ∧
    forallb (λ e, is_get e || is_second e) t = true ∧
    count is_get t ≤ (count is_sleep t + 1) * length batch ∧
    count is_get t = (count is_sleep t + 1) * length batch.
Proof.
  assert (fst (wait_for_operation (simulated calm) 5 batch (controller 3)) ≠ OutOfFuel)
    as Hfuel by (by vm_compute).
  assert (∀ detail, fst (wait_for_operation (simulated calm) 5 batch (controller 3))
                    ≠ Raises (HttpError detail))
    as Hhttp by (intros detail; by vm_compute).
  split; [exact Hfuel|]. split; [exact Hhttp|].
  destruct (wait_for_operation_cost (simulated calm) 5 batch (controller 3))
    as (t & Ht & Hk & Hle & Heq).
  exists t. split; [exact Ht|]. split; [exact Hk|]. split; [exact Hle|].
  exact (Heq Hfuel Hhttp).
Defined.

Lemma create_all_returns_witness :
  create_all (simulated calm) 3 (controller 2) =
    (Returns tt, snd (create_all (simulated calm) 3 (controller 2))) ∧
  (0 < number_of_instances (self (controller 2)))%Z ∧
  ∃ t b,
    trace (snd (create_all (simulated calm) 3 (controller 2))) =
      trace (controller 2) ++ t ++
      [EvList (project (self (controller 2))) (zone (self (controller 2))) (Answer b)] ∧
    b !! "items" = Some (instances (self (snd (create_all (simulated calm) 3 (controller 2))))) ∧
    existsb faulted t = false ∧
    count is_insert t = Z.to_nat (number_of_instances (self (controller 2))) ∧
    count is_read t = Z.to_nat (number_of_instances (self (controller 2))) ∧
    count is_list t = 0 ∧ count is_delete t = 0 ∧
    name_of <$> insert_bodies t =
      instance_names (project (self (controller 2)))
        (range (number_of_instances (self (controller 2)))) ∧
    zone (self (snd (create_all (simulated calm) 3 (controller 2)))) =
      zone (self (controller 2)) ∧
    project (self (snd (create_all (simulated calm) 3 (controller 2)))) =
      project (self (controller 2)) ∧
    disk_image (self (snd (create_all (simulated calm) 3 (controller 2)))) =
      disk_image (self (controller 2)) ∧
    machine_type (self (snd (create_all (simulated calm) 3 (controller 2)))) =
      machine_type (self (controller 2)) ∧
    number_of_instances (self (snd (create_all (simulated calm) 3 (controller 2)))) =
      number_of_instances (self (controller 2)).
Proof.
  split; [by vm_compute|].
  apply (create_all_returns (simulated calm) 3 (controller 2)).
  by vm_compute.
Defined.

Lemma create_all_read_fails_witness :
  trace (snd (create_all scriptless 3 (controller 2))) =
    trace (controller 2) ++ [] ++
    EvOpenRead "startup-script.sh" (Fault "No such file or directory") :: [] ∧
  fst (create_all scriptless 3 (controller 2)) =
    Raises (OSError "No such file or directory") ∧
  [] = ([] : list event) ∧ "startup-script.sh" = "startup-script.sh" ∧
  forallb is_creation [] = true ∧ existsb breaks [] = false ∧
  count is_read [] = count is_insert [] ∧
  count is_insert [] < Z.to_nat (number_of_instances (self (controller 2))) ∧
  self (snd (create_all scriptless 3 (controller 2))) = self (controller 2).
Proof.
  split; [by vm_compute|].
  apply (create_all_read_fails scriptless 3 (controller 2) [] []
           "startup-script.sh" "No such file or directory").
  by vm_compute.
Defined.

Lemma create_all_unnamed_reply_witness :
  trace (snd (create_all nameless 3 (controller 2))) =
    trace (controller 2) ++
    [EvOpenRead "startup-script.sh" (Answer "#! /bin/bash")] ++
    EvInsert "default" "us-central1-f" (body_for "default-0")
      (Answer {[ "kind" := VStr "compute#operation" ]}) :: [] ∧
  ({[ "kind" := VStr "compute#operation" ]} : dict) !! "name" = None ∧
  fst (create_all nameless 3 (controller 2)) = Raises (KeyError "name") ∧
  [] = ([] : list event) ∧
  forallb is_creation [EvOpenRead "startup-script.sh" (Answer "#! /bin/bash")] = true ∧
  existsb breaks [EvOpenRead "startup-script.sh" (Answer "#! /bin/bash")] = false ∧
  count is_insert [EvOpenRead "startup-script.sh" (Answer "#! /bin/bash")]
    < Z.to_nat (number_of_instances (self (controller 2))) ∧
  self (snd (create_all nameless 3 (controller 2))) = self (controller 2).
Proof.
  split; [by vm_compute|]. split; [by vm_compute|].
  apply (create_all_unnamed_reply nameless 3 (controller 2)
           [EvOpenRead "startup-script.sh" (Answer "#! /bin/bash")] []
           "default" "us-central1-f" (body_for "default-0")
           {[ "kind" := VStr "compute#operation" ]});
    by vm_compute.
Defined.

(** * Deleting, and the whole script *)

Section Lifecycle.
Context {S : Type} (P : Provider S).

Ltac step :=
  unfold mbind, M_bind, mret, M_ret, attr, lift, sleep, get_execute,
    list_execute, insert_execute, delete_execute, read_file, set_instances;
  simpl.

(** ** Every run of the deletion loop *)

(** The loop issues one delete per roster entry, in order, until it is
    past the last entry, meets an entry without a name, or a call fails or
    is answered without an operation id; such a call is the last event. *)
Lemma delete_loop_shape (roster acc : list value) (w : world S) :
  self (snd (delete_loop P roster acc w)) = self w ∧
  ∃ t, trace (snd (delete_loop P roster acc w)) = trace w ++ t ∧
    forallb is_delete t = true ∧
    Some <$> delete_targets t `prefix_of` name_of <$> roster ∧
    match fst (delete_loop P roster acc w) with
    | Returns ops =>
        existsb breaks t = false ∧ length t = length roster ∧
        Some <$> delete_targets t = name_of <$> roster ∧
        ∃ ops', ops = acc ++ ops' ∧ length ops' = length roster
    | Raises e =>
        (existsb breaks t = false ∧ length t < length roster ∧
         ∃ entry, entry ∈ roster ∧ subscript entry "name" = Raises e) ∨
        (∃ t0 ev, t = t0 ++ [ev] ∧ existsb breaks t0 = false ∧ breaks ev = true ∧
           length t0 < length roster ∧
           ((∃ name detail,
               ev = EvDelete (project (self w)) (zone (self w)) name (Fault detail) ∧
               e = HttpError detail) ∨
            (∃ name d,
               ev = EvDelete (project (self w)) (zone (self w)) name (Answer d) ∧
               d !! "name" = None ∧ e = KeyError "name")))
    | OutOfFuel => False
    end.
Proof.
  revert acc w. induction roster as [|entry roster IH]; intros acc w.
  { simpl. split; [done|]. exists []. rewrite app_nil_r.
    repeat split; try done. exists []. by rewrite app_nil_r. }
  rewrite delete_loop_cons.
  destruct (subscript entry "name") as [name|e|] eqn:Hsub.
  2:{ simpl. split; [done|]. exists []. rewrite app_nil_r.
      split; [done|]. split; [done|]. split; [apply prefix_nil|].
      left. split; [done|]. split; [simpl; lia|]. exists entry. split; [by left|done]. }
  2:{ destruct entry; simpl in Hsub; try done. unfold getitem in Hsub.
      by destruct (d !! "name"). }
  assert (name_of entry = Some name) as Hname.
  { destruct entry; simpl in Hsub |- *; try done. unfold getitem in Hsub.
    destruct (d !! "name"); by inversion Hsub. }
  unfold delete_instance. step.
  destruct (instances_delete P _ _ name (cloud w)) as [[d|detail] c1]; simpl.
  2:{ split; [done|]. eexists [_]. split; [done|]. split; [done|].
      split. { unfold delete_targets. simpl. rewrite Hname. apply prefix_cons, prefix_nil. }
      right. exists [], (EvDelete (project (self w)) (zone (self w)) name (Fault detail)).
      repeat split; try done; [simpl; lia|]. left. by exists name, detail. }
  destruct (d !! "name") as [op|] eqn:Hop; simpl.
  2:{ split; [done|]. eexists [_]. split; [done|]. split; [done|].
      split. { unfold delete_targets. simpl. rewrite Hname. apply prefix_cons, prefix_nil. }
      right. exists [], (EvDelete (project (self w)) (zone (self w)) name (Answer d)).
      split; [done|]. split; [done|].
      split. { unfold breaks. simpl. by rewrite Hop. }
      split; [simpl; lia|]. right. by exists name, d. }
  match goal with |- context [delete_loop P roster ?a ?w1] =>
    destruct (IH a w1) as (Hself & t & Ht & Hk & Hpre & Hcase);
    destruct (delete_loop P roster a w1) as [r w2]
  end.
  simpl in Hself, Ht, Hcase |- *. split; [done|].
  exists (EvDelete (project (self w)) (zone (self w)) name (Answer d) :: t).
  rewrite Ht, <- !app_assoc. split; [done|]. simpl. split; [done|].
  assert (breaks (EvDelete (project (self w)) (zone (self w)) name (Answer d)) = false)
    as Hnb by (unfold breaks; simpl; by rewrite Hop).
  rewrite Hname, Hnb. split; [by apply prefix_cons|].
  destruct r as [ops|e|]; [| |done].
  - destruct Hcase as (Hb & Hlen & Htg & ops' & -> & Hlen').
    simpl. rewrite Hlen. split; [done|]. split; [done|]. split; [by f_equal|].
    exists (op :: ops'). rewrite <- app_assoc. simpl. by rewrite Hlen'.
  - destruct Hcase as [(Hb & Hlen & entry' & Hin & Hsub')|
                       (t0 & ev & -> & Hb & Hev & Hlen & Hwhich)].
    + left. simpl. split; [done|]. split; [lia|]. exists entry'. split; [by right|done].
    + right.
      exists (EvDelete (project (self w)) (zone (self w)) name (Answer d) :: t0), ev.
      simpl. rewrite Hnb. repeat split; try done. lia.
Qed.

(** ** Every run of [delete_all] *)

(** A roster that is not a list has no entry with a name: nothing is
    called, and [delete_all] does not return. *)
Lemma delete_all_not_list (fuel : nat) (w : world S) :
  (∀ roster, instances (self w) ≠ VList roster) →
  snd (delete_all P fuel w) = w ∧ fst (delete_all P fuel w) ≠ Returns tt.
Proof.
  intros Hnl. rewrite delete_all_unfold.
  destruct (instances (self w)) as [| | |s|l|d] eqn:Hi; cbn [iterate]; try done.
  - destruct (String.list_ascii_of_string s) as [|a l].
    + by destruct fuel.
    + by rewrite fmap_cons, delete_loop_cons.
  - by destruct (Hnl l).
  - destruct ((map_to_list d).*1) as [|k l].
    + by destruct fuel.
    + by rewrite fmap_cons, delete_loop_cons.
Qed.

Lemma delete_all_shape (fuel : nat) (w : world S) :
  ((∀ roster, instances (self w) ≠ VList roster) ∧
   snd (delete_all P fuel w) = w ∧ fst (delete_all P fuel w) ≠ Returns tt) ∨
  ∃ roster t polls,
    instances (self w) = VList roster ∧
    trace (snd (delete_all P fuel w)) = trace w ++ t ++ polls ∧
    forallb is_delete t = true ∧ forallb is_poll polls = true ∧
    Some <$> delete_targets t `prefix_of` name_of <$> roster ∧
    match fst (delete_all P fuel w) with
    | Returns _ =>
        roster ≠ [] ∧ existsb breaks t = false ∧ existsb faulted polls = false ∧
        length t = length roster ∧
        Some <$> delete_targets t = name_of <$> roster
    | Raises e =>
        existsb breaks t = false ∨
        (polls = [] ∧
         ∃ t0 ev, t = t0 ++ [ev] ∧ existsb breaks t0 = false ∧ breaks ev = true ∧
           length t0 < length roster ∧
           ((∃ name detail,
               ev = EvDelete (project (self w)) (zone (self w)) name (Fault detail) ∧
               e = HttpError detail) ∨
            (∃ name d,
               ev = EvDelete (project (self w)) (zone (self w)) name (Answer d) ∧
               d !! "name" = None ∧ e = KeyError "name")))
    | OutOfFuel => existsb breaks t = false
    end.
Proof.
  destruct (instances (self w)) as [| | |s|roster|d] eqn:Hi;
    try (left; split; [congruence|]; apply delete_all_not_list; congruence).
  right. exists roster.
  rewrite delete_all_unfold, Hi. simpl.
  destruct (delete_loop_shape roster [] w) as (Hself & t & Ht & Hk & Hpre & Hcase).
  destruct (delete_loop P roster [] w) as [[ops|e|] w1]; simpl in Hself, Ht, Hcase |- *;
    [| |done].
  2:{ exists t, []. rewrite app_nil_r. split; [done|]. split; [done|].
      split; [done|]. split; [done|]. split; [done|].
      destruct Hcase as [(Hb & _)|Hright]; [by left|right]. by split. }
  destruct Hcase as (Hb & Hlen & Htg & ops' & -> & Hlen').
  destruct (wait_shape P _ _ ops' fuel w1 eq_refl eq_refl)
    as (_ & polls & Hpolls & Hkp & _ & Hwait).
  apply polls_weaken in Hkp.
  exists t, polls.
  destruct (wait_for_operation P fuel ops' w1) as [[d|e|] w2]; simpl in Hpolls, Hwait |- *;
    rewrite Hpolls, Ht, <- app_assoc;
    (split; [done|]); (split; [done|]); (split; [done|]); (split; [done|]);
    (split; [done|]); [|by left|done].
  destruct Hwait as (Hf & _ & _ & ds & _ & Hlends & _ & _ & Hlast).
  split; [|done]. intros ->. simpl in Hlen'. apply last_element in Hlast.
  destruct ops'; [|done]. destruct ds; [|done]. by apply elem_of_nil in Hlast.
Qed.

(** X10.  If a delete call fails, [delete_all] raises that HttpError at
    once: the failed delete is the last event of the run, so the entries
    after it are not deleted and the waiter is not run; the deletes before
    it went through and target the first entries of the roster, in order;
    the roster is a list longer than their number, and the controller is
    as it was. *)
Theorem delete_all_fails_fast (fuel : nat) (w : world S) (pre post : list event)
    (p z : string) (name : value) (detail : string) :
  trace (snd (delete_all P fuel w)) =
    trace w ++ pre ++ EvDelete p z name (Fault detail) :: post →
  fst (delete_all P fuel w) = Raises (HttpError detail) ∧
  post = [] ∧
  forallb is_delete pre = true ∧ existsb breaks pre = false ∧
  self (snd (delete_all P fuel w)) = self w ∧
  ∃ roster,
    instances (self w) = VList roster ∧ length pre < length roster ∧
    Some <$> delete_targets (pre ++ [EvDelete p z name (Fault detail)])
      `prefix_of` name_of <$> roster.
Proof.
  intros Htrace.
  destruct (emits_delete_all P fuel w) as [Hself _].
  destruct (delete_all_shape fuel w)
    as [(_ & Hsame & _)|(roster & t & polls & Hi & Ht & Hk & Hkp & Hpre & Hcase)].
  { rewrite Hsame in Htrace. rewrite <- (app_nil_r (trace w)) in Htrace at 1.
    apply app_inv_head in Htrace. by destruct pre. }
  rewrite Ht in Htrace. apply app_inv_head in Htrace.
  set (ev := EvDelete p z name (Fault detail)) in *.
  assert (∀ u, existsb breaks u = false → ¬ In ev u) as Hnot.
  { intros u Hu Hin. assert (existsb breaks u = true); [|congruence].
    apply existsb_exists. by exists ev. }
  assert (existsb breaks t = false → False) as Habsurd.
  { intros Hb. assert (In ev (t ++ polls)) as Hin by (rewrite Htrace; apply in_elt).
    apply in_app_or in Hin as [Hin|Hin]; [by apply (Hnot t)|].
    by pose proof (proj1 (forallb_forall _ _) Hkp _ Hin). }
  destruct (fst (delete_all P fuel w)) as [[]|e|].
  - by destruct Hcase as (_ & Hb & _).
  - destruct Hcase as [Hb|(-> & t0 & ev' & -> & Hb & Hev & Hlen & Hwhich)]; [done|].
    rewrite app_nil_r in Htrace.
    destruct (last_fault_unique breaks t0 pre post ev' ev Hb eq_refl Htrace)
      as (-> & -> & ->).
    rewrite forallb_app in Hk. apply andb_prop in Hk as [Hk _].
    destruct Hwhich as [(name' & detail' & [= _ _ _ ->] & ->)|(name' & d & [=] & _)].
    repeat split; try done. by exists roster.
  - done.
Qed.

(** X11.  When [delete_all] returns, the roster is a non-empty list; one
    delete call was issued per entry, in roster order and under the name
    of the entry, all of them before the first status lookup; no call of
    the run failed; and the controller, roster included, is as it was. *)
Theorem delete_all_returns (fuel : nat) (w w' : world S) :
  delete_all P fuel w = (Returns tt, w') →
  self w' = self w ∧
  ∃ roster t polls,
    instances (self w) = VList roster ∧ roster ≠ [] ∧
    trace w' = trace w ++ t ++ polls ∧
    forallb is_delete t = true ∧ forallb is_poll polls = true ∧
    length t = length roster ∧
    Some <$> delete_targets t = name_of <$> roster ∧
    existsb faulted (t ++ polls) = false.
Proof.
  intros Hrun.
  destruct (emits_delete_all P fuel w) as [Hself _].
  destruct (delete_all_shape fuel w)
    as [(_ & _ & Hfail)|(roster & t & polls & Hi & Ht & Hk & Hkp & _ & Hcase)];
    rewrite Hrun in *; simpl in *; [done|].
  destruct Hcase as (Hne & Hb & Hf & Hlen & Htg).
  split; [done|]. exists roster, t, polls.
  repeat split; try done. by rewrite existsb_app, (breaks_faulted _ Hb), Hf.
Qed.

(** X12.  [delete_all] does not forget what it deleted.  After a
    [delete_all] that returned, a second [delete_all] targets the same
    names again, in the same order: its delete calls are an initial
    segment of those of the first, and all of them if it returns too. *)
Theorem delete_all_again (fuel fuel' : nat) (w w' : world S) :
  delete_all P fuel w = (Returns tt, w') →
  ∃ t1 t2,
    trace w' = trace w ++ t1 ∧
    trace (snd (delete_all P fuel' w')) = trace w' ++ t2 ∧
    delete_targets t2 `prefix_of` delete_targets t1 ∧
    (fst (delete_all P fuel' w') = Returns tt →
     delete_targets t2 = delete_targets t1 ∧ delete_targets t1 ≠ []).
Proof.
  intros Hrun.
  destruct (emits_delete_all P fuel w) as [Hself _].
  destruct (delete_all_shape fuel w)
    as [(_ & _ & Hfail)|(roster & t & polls & Hi & Ht & _ & Hkp & _ & Hcase)];
    rewrite Hrun in *; simpl in *; [done|].
  destruct Hcase as (Hne & _ & _ & _ & Htg).
  destruct (delete_all_shape fuel' w')
    as [(Hnl & _)|(roster' & t' & polls' & Hi' & Ht' & _ & Hkp' & Hpre' & Hcase')].
  { destruct (Hnl roster). congruence. }
  assert (roster' = roster) as -> by congruence.
  exists (t ++ polls), (t' ++ polls').
  split; [done|]. split; [done|].
  assert (∀ u v, forallb is_poll v = true →
            delete_targets (u ++ v) = delete_targets u) as Htail.
  { intros u v Hv. unfold delete_targets. rewrite omap_app.
    fold (delete_targets v). destruct (polls_silent v Hv) as (_ & _ & _ & _ & _ & ->).
    by rewrite app_nil_r. }
  rewrite !Htail by done.
  rewrite <- Htg in Hpre', Hcase'. split.
  - destruct Hpre' as [k Hk].
    apply fmap_app_inv in Hk as (l1 & l2 & Hl1 & _ & ->).
    apply (inj (fmap Some)) in Hl1 as ->. by exists l2.
  - intros Hret. rewrite Hret in Hcase'. destruct Hcase' as (_ & _ & _ & _ & Htg').
    apply (inj (fmap Some)) in Htg'. split; [done|].
    intros Hnil. rewrite Hnil in Htg. destruct roster; done.
Qed.

(** ** The script *)

(** What a [create_all] that returned has done, as far as the script
    needs it. *)
Lemma create_all_done (fuel : nat) (w w' : world S) :
  create_all P fuel w = (Returns tt, w') →
  ∃ t b,
    trace w' = trace w ++ t ++ [EvList (project (self w)) (zone (self w)) (Answer b)] ∧
    b !! "items" = Some (instances (self w')) ∧
    count is_insert t = Z.to_nat (number_of_instances (self w)) ∧
    count is_delete t = 0 ∧
    name_of <$> insert_bodies t =
      instance_names (project (self w)) (range (number_of_instances (self w))).
Proof.
  rewrite create_all_unfold.
  destruct (create_loop_shape P (range (number_of_instances (self w))) [] w)
    as (Hself1 & t1 & Ht1 & Hk1 & _ & _ & Hloop).
  destruct (create_loop P _ [] w) as [[ops|e|] w1]; simpl in Hself1, Ht1, Hloop; [|done|done].
  destruct Hloop as (_ & Hci & _ & Hnames & ops' & -> & _ & _).
  simpl.
  destruct (wait_shape P _ _ ops' fuel w1 eq_refl eq_refl)
    as (Hself2 & t2 & Ht2 & Hk2 & _ & _).
  destruct (wait_for_operation P fuel ops' w1) as [[d|e|] w2];
    simpl in Hself2, Ht2 |- *; [|done|done].
  rewrite list_instances_run, Hself2, Hself1.
  destruct (instances_list P _ _ (cloud w2)) as [[b|detail] c3]; simpl; [|done].
  destruct (b !! "items") as [items|] eqn:Hitems; [|done].
  intros [= <-]. simpl.
  apply polls_weaken in Hk2.
  destruct (polls_silent t2 Hk2) as (Hi2 & _ & _ & Hd2 & Hbodies2 & _).
  destruct (creation_silent t1 Hk1) as (_ & Hd1 & _).
  exists (t1 ++ t2), b. rewrite Ht2, Ht1, <- !app_assoc.
  split; [done|]. split; [done|].
  rewrite !count_app, Hci, Hi2, Hd1, Hd2, range_length.
  unfold insert_bodies in *. rewrite omap_app, Hbodies2, app_nil_r.
  repeat split; try done; lia.
Qed.

(** X13.  When the script returns, it has created one instance, named
    [brave-set-92418-0], and then deleted every instance that the list
    call of [create_all] reported for the project and zone, one delete per
    listed instance in the order of the list, whether or not the script
    created it; the list was not empty, nothing was deleted before it was
    taken, and at the end the roster still holds the listed instances. *)
Theorem main_returns (fuel : nat) (c : S) :
  fst (main P fuel c) = Returns tt →
  ∃ t1 b roster t2 polls,
    trace (snd (main P fuel c)) =
      t1 ++ [EvList "brave-set-92418" "us-central1-f" (Answer b)] ++ t2 ++ polls ∧
    b !! "items" = Some (VList roster) ∧ roster ≠ [] ∧
    count is_insert t1 = 1 ∧
    name_of <$> insert_bodies t1 = [Some (VStr "brave-set-92418-0")] ∧
    count is_delete t1 = 0 ∧
    forallb is_delete t2 = true ∧ length t2 = length roster ∧
    Some <$> delete_targets t2 = name_of <$> roster ∧
    forallb is_poll polls = true ∧
    instances (self (snd (main P fuel c))) = VList roster.
Proof.
  unfold main, mbind, M_bind.
  set (w0 := fresh "us-central1-f" "brave-set-92418" "bsptest" "n1-standard-1" 1 c).
  destruct (create_all P fuel w0) as [[[]|e|] w1] eqn:Hcreate; [|done|done].
  intros Hret.
  destruct (create_all_done fuel w0 w1 Hcreate) as (t1 & b & Ht1 & Hitems & Hci & Hcd & Hnames).
  destruct (emits_delete_all P fuel w1) as [Hself _].
  destruct (delete_all_shape fuel w1)
    as [(_ & _ & Hfail)|(roster & t2 & polls & Hi & Ht2 & Hk & Hkp & _ & Hcase)];
    [done|].
  rewrite Hret in Hcase. destruct Hcase as (Hne & _ & _ & Hlen & Htg).
  exists t1, b, roster, t2, polls.
  rewrite Ht2, Ht1, Hself, Hi. simpl. rewrite <- !app_assoc.
  split; [done|]. split; [by rewrite Hitems, Hi|].
  repeat split; done.
Qed.

End Lifecycle.

(** * Deleting and the script on the simulated providers *)

Lemma delete_all_fails_fast_witness :
  trace (snd (delete_all guarded 3 populated)) =
    trace populated ++
    [EvDelete "default" "us-central1-f" (VStr "default-0")
       (Answer {[ "name" := VStr "operation-0" ]})] ++
    EvDelete "default" "us-central1-f" (VStr "default-1") (Fault "resource in use")
      :: [] ∧
  fst (delete_all guarded 3 populated) = Raises (HttpError "resource in use") ∧
  [] = ([] : list event) ∧
  forallb is_delete
    [EvDelete "default" "us-central1-f" (VStr "default-0")
       (Answer {[ "name" := VStr "operation-0" ]})] = true ∧
  existsb breaks
    [EvDelete "default" "us-central1-f" (VStr "default-0")
       (Answer {[ "name" := VStr "operation-0" ]})] = false ∧
  self (snd (delete_all guarded 3 populated)) = self populated ∧
  ∃ roster,
    instances (self populated) = VList roster ∧
    length [EvDelete "default" "us-central1-f" (VStr "default-0")
              (Answer {[ "name" := VStr "operation-0" ]})] < length roster ∧
    Some <$> delete_targets
      ([EvDelete "default" "us-central1-f" (VStr "default-0")
          (Answer {[ "name" := VStr "operation-0" ]})] ++
       [EvDelete "default" "us-central1-f" (VStr "default-1") (Fault "resource in use")])
      `prefix_of` name_of <$> roster.
Proof.
  split; [by vm_compute|].
  apply (delete_all_fails_fast guarded 3 populated
           [EvDelete "default" "us-central1-f" (VStr "default-0")
              (Answer {[ "name" := VStr "operation-0" ]})]
           [] "default" "us-central1-f" (VStr "default-1") "resource in use").
  by vm_compute.
Defined.

Lemma delete_all_returns_witness :
  delete_all (simulated prompt) 1 populated =
    (Returns tt, snd (delete_all (simulated prompt) 1 populated)) ∧
  self (snd (delete_all (simulated prompt) 1 populated)) = self populated ∧
  ∃ roster t polls,
    instances (self populated) = VList roster ∧ roster ≠ [] ∧
    trace (snd (delete_all (simulated prompt) 1 populated)) =
      trace populated ++ t ++ polls ∧
    forallb is_delete t = true ∧ forallb is_poll polls = true ∧
    length t = length roster ∧
    Some <$> delete_targets t = name_of <$> roster ∧
    existsb faulted (t ++ polls) = false.
Proof.
  split; [by vm_compute|].
  apply (delete_all_returns (simulated prompt) 1 populated).
  by vm_compute.
Defined.

Lemma delete_all_again_witness :
  delete_all (simulated prompt) 1 populated =
    (Returns tt, snd (delete_all (simulated prompt) 1 populated)) ∧
  ∃ t1 t2,
    trace (snd (delete_all (simulated prompt) 1 populated)) = trace populated ++ t1 ∧
    trace (snd (delete_all (simulated prompt) 1
                  (snd (delete_all (simulated prompt) 1 populated)))) =
      trace (snd (delete_all (simulated prompt) 1 populated)) ++ t2 ∧
    delete_targets t2 `prefix_of` delete_targets t1 ∧
    (fst (delete_all (simulated prompt) 1
            (snd (delete_all (simulated prompt) 1 populated))) = Returns tt →
     delete_targets t2 = delete_targets t1 ∧ delete_targets t1 ≠ []).
Proof.
  split; [by vm_compute|].
  apply (delete_all_again (simulated prompt) 1 1 populated).
  by vm_compute.
Defined.

Lemma main_returns_witness :
  fst (main (simulated calm) 3 boot) = Returns tt ∧
  ∃ t1 b roster t2 polls,
    trace (snd (main (simulated calm) 3 boot)) =
      t1 ++ [EvList "brave-set-92418" "us-central1-f" (Answer b)] ++ t2 ++ polls ∧
    b !! "items" = Some (VList roster) ∧ roster ≠ [] ∧
    count is_insert t1 = 1 ∧
    name_of <$> insert_bodies t1 = [Some (VStr "brave-set-92418-0")] ∧
    count is_delete t1 = 0 ∧
    forallb is_delete t2 = true ∧ length t2 = length roster ∧
    Some <$> delete_targets t2 = name_of <$> roster ∧
    forallb is_poll polls = true ∧
    instances (self (snd (main (simulated calm) 3 boot))) = VList roster.
Proof.
  split; [by vm_compute|].
  apply (main_returns (simulated calm) 3 boot).
  by vm_compute.
Defined.
